(** * Practice-level prescribing metrics: a model of [src/analyze.py]

    [compute_metrics] sums prescription items and list sizes per practice,
    derives items per 1000 patients, the overall mean rate, funnel-plot
    control limits at two confidence levels and an outlier label.

    Numbers.  The source computes in float64.  Here a float is either a
    real number or NaN ([None]); arithmetic on the real part is exact, so
    rounding and the infinities are outside the model.  NaN behaves as in
    IEEE 754: it propagates through arithmetic and every ordered comparison
    with it is false.

    Layout.  The model comes first, in program order: [pd.dropna_items],
    [clean_items], [clean_list_size], [groupby_sum] (lines 47-57),
    [rate_of] (59-63), [overall_mean] (66), [limits] (69-76),
    [with_limits] (78-91), [classify] and [with_outlier] (94-104),
    [compute_metrics] (25-106).  The properties follow:

    - C1  [rate_per_1000_defined_iff_positive]
    - C2  [control_limits_spec]
    - C3  [outlier_flag_spec]
    - C4  [mean_rate_spec]
    - C5  [aggregation_spec]
    - C6  [end_to_end_example]
    - C7  [band_narrows_with_list_size]
    - C8  [degenerate_run]
    - C9  [empty_input_result]
    - C10 [column_order_differs]
    - X1  [rows_ascending]
    - X2  [codes_independent_of_row_order]
    - X3  [bands_nested]
    - X4  [limits_defined_iff]
    - X5  [nonnegative_data]
    - X6  [never_all_on_one_side]
    - X7  [equal_rates_no_outlier]
    - X8  [selected_labels] and X9 [standard_names_arrive], on the column
      labels of [src/clean.py], lines 75-89. *)

From Stdlib Require Import Reals Lra Lia List String Ascii NArith Sorted Bool Arith.
From Stdlib Require Import Permutation.
Import ListNotations.

Open Scope string_scope.
Open Scope R_scope.

(** ** Floats with NaN *)

Definition float : Type := option R.

Declare Scope float_scope.
Delimit Scope float_scope with fl.
Bind Scope float_scope with float.

Definition lift2 (op : R -> R -> R) (a b : float) : float :=
  match a, b with
  | Some x, Some y => Some (op x y)
  | _, _ => None
  end.

Definition fadd : float -> float -> float := lift2 Rplus.
Definition fsub : float -> float -> float := lift2 Rminus.
Definition fmul : float -> float -> float := lift2 Rmult.

(** A quotient by zero is an infinity or NaN in float64; neither is a real,
    so it is shown as NaN.  [compute_metrics] meets it only in the branch
    that [np.where] discards. *)
Definition fdiv (a b : float) : float :=
  match a, b with
  | Some x, Some y => if Req_dec_T y 0 then None else Some (x / y)
  | _, _ => None
  end.

Definition Rgtb (x y : R) : bool := if Rgt_dec x y then true else false.
Definition Rltb (x y : R) : bool := if Rlt_dec x y then true else false.
Definition Rleb (x y : R) : bool := if Rle_dec x y then true else false.

Definition fgt (a b : float) : bool :=
  match a, b with
  | Some x, Some y => Rgtb x y
  | _, _ => false
  end.

Definition flt (a b : float) : bool :=
  match a, b with
  | Some x, Some y => Rltb x y
  | _, _ => false
  end.

Infix "+" := fadd : float_scope.
Infix "-" := fsub : float_scope.
Infix "*" := fmul : float_scope.
Infix "/" := fdiv : float_scope.
Infix ">?" := fgt (at level 70) : float_scope.
Infix "<?" := flt (at level 70) : float_scope.

(** The numpy functions the source calls. *)
Module np.

Definition nan : float := None.

Definition isnan (x : float) : bool :=
  match x with
  | None => true
  | Some _ => false
  end.

(** [np.sqrt] of a negative number is NaN (a warning, not an exception). *)
Definition sqrt (x : float) : float :=
  match x with
  | Some v => if Rlt_dec v 0 then None else Some (R_sqrt.sqrt v)
  | None => None
  end.

(** [np.where], element by element ([where] is reserved in Rocq). *)
Definition where_ (c : bool) (a b : float) : float := if c then a else b.

End np.

(** ** The tidy input table *)

(** A cell of the [items] or [list_size] column as pandas holds it: missing
    (NaN/None), a value [pd.to_numeric] turns into the number [x], or a
    value it cannot parse. *)
Inductive cell : Type :=
| NA
| Num (x : R)
| Unparseable.

Module Tidy.
(** One row of [data/tidy.csv].  A missing practice code is [None]. *)
Record row : Type := mk {
  practice_code : option string;
  month : string;
  items : cell;
  list_size : cell
}.
End Tidy.

(** The pandas functions the source calls. *)
Module pd.

Definition isna (c : cell) : bool :=
  match c with
  | NA => true
  | _ => false
  end.

(** [pd.to_numeric(_, errors="coerce")]. *)
Definition to_numeric (c : cell) : float :=
  match c with
  | NA => None
  | Num x => Some x
  | Unparseable => None
  end.

(** [Series.fillna(v)] on a column of raw cells. *)
Definition fillna_cell (v : R) (c : cell) : cell :=
  match c with
  | NA => Num v
  | _ => c
  end.

(** [Series.fillna(v)] on a numeric column; the result holds no NaN. *)
Definition fillna (v : R) (x : float) : R :=
  match x with
  | Some y => y
  | None => v
  end.

(** [df.dropna(subset=["items"])]. *)
Definition dropna_items (df : list Tidy.row) : list Tidy.row :=
  filter (fun r => negb (isna (Tidy.items r))) df.

End pd.

(** ** Aggregation by practice *)

Module Grouped.
Record row : Type := mk {
  practice_code : string;
  total_items : R;
  total_list_size : R
}.
End Grouped.

(** Lines 47-51: the rows kept, with both columns numeric. *)
Definition clean_items (r : Tidy.row) : R :=
  pd.fillna 0 (pd.to_numeric (Tidy.items r)).

Definition clean_list_size (r : Tidy.row) : R :=
  pd.fillna 0 (pd.to_numeric (pd.fillna_cell 0 (Tidy.list_size r))).

(** One step of the grouped sum: add a row's values to the entry of its
    practice, creating the entry at its place in ascending key order. *)
Fixpoint upsert (k : string) (i l : R) (acc : list Grouped.row) : list Grouped.row :=
  match acc with
  | [] => [Grouped.mk k i l]
  | t :: rest =>
      match String.compare k (Grouped.practice_code t) with
      | Lt => Grouped.mk k i l :: acc
      | Eq => Grouped.mk k (Grouped.total_items t + i) (Grouped.total_list_size t + l) :: rest
      | Gt => t :: upsert k i l rest
      end
  end.

Definition add_row (acc : list Grouped.row) (r : Tidy.row) : list Grouped.row :=
  match Tidy.practice_code r with
  | Some k => upsert k (clean_items r) (clean_list_size r) acc
  | None => acc
  end.

(** [df.groupby("practice_code").agg(sum, sum).reset_index()]: keys
    ascending, rows with a missing key left out. *)
Definition groupby_sum (df : list Tidy.row) : list Grouped.row :=
  fold_left add_row df [].

(** Lines 47-57. *)
Definition aggregate (df : list Tidy.row) : list Grouped.row :=
  groupby_sum (pd.dropna_items df).

(** ** Rates, mean and control limits *)

(** Lines 59-63. *)
Definition rate_of (t : Grouped.row) : float :=
  np.where_ (Rgtb (Grouped.total_list_size t) 0)
    (Some (Grouped.total_items t) / Some (Grouped.total_list_size t) * Some 1000)%fl
    np.nan.

(** [Series.mean(skipna=True)]: running sum and count of the entries that
    are not NaN; NaN when there is none. *)
Definition mean_step (acc : R * nat) (x : float) : R * nat :=
  match x with
  | Some v => (fst acc + v, S (snd acc))
  | None => acc
  end.

Definition mean_skipna (xs : list float) : float :=
  let acc := fold_left mean_step xs (0, 0%nat) in
  match snd acc with
  | O => np.nan
  | S _ => Some (fst acc / INR (snd acc))
  end.

(** Line 66. *)
Definition overall_mean (grouped : list Grouped.row) : float :=
  mean_skipna (map rate_of grouped).

(** Lines 69-76; [mean_rate] is the variable the closure captures. *)
Definition limits (mean_rate : float) (size z : R) : float * float :=
  if Rleb size 0 || np.isnan mean_rate then (np.nan, np.nan)
  else
    let se := np.sqrt (mean_rate / Some size)%fl in
    ((mean_rate + Some z * se)%fl, (mean_rate - Some z * se)%fl).

Module Limits.
(** A row of [grouped] after line 91. *)
Record row : Type := mk {
  practice_code : string;
  total_items : R;
  total_list_size : R;
  rate_per_1000 : float;
  mean_rate : float;
  ucl95 : float;
  lcl95 : float;
  ucl998 : float;
  lcl998 : float
}.
End Limits.

(** Lines 78-91, for one row. *)
Definition with_limits (mean_rate : float) (t : Grouped.row) : Limits.row :=
  let '(upper95, lower95) := limits mean_rate (Grouped.total_list_size t / 1000) 1.96 in
  let '(upper998, lower998) := limits mean_rate (Grouped.total_list_size t / 1000) 3.09 in
  Limits.mk (Grouped.practice_code t) (Grouped.total_items t) (Grouped.total_list_size t)
    (rate_of t) mean_rate upper95 lower95 upper998 lower998.

(** ** Classification *)

(** Lines 94-102. *)
Definition classify (row : Limits.row) : string :=
  let rate := Limits.rate_per_1000 row in
  if np.isnan rate then ""
  else if (rate >? Limits.ucl998 row)%fl then "high"
  else if (rate <? Limits.lcl998 row)%fl then "low"
  else "".

Module Metrics.
(** A row of the table [compute_metrics] returns. *)
Record row : Type := mk {
  practice_code : string;
  total_items : R;
  total_list_size : R;
  rate_per_1000 : float;
  mean_rate : float;
  ucl95 : float;
  lcl95 : float;
  ucl998 : float;
  lcl998 : float;
  outlier : string
}.
End Metrics.

(** Line 104, for one row. *)
Definition with_outlier (r : Limits.row) : Metrics.row :=
  Metrics.mk (Limits.practice_code r) (Limits.total_items r) (Limits.total_list_size r)
    (Limits.rate_per_1000 r) (Limits.mean_rate r)
    (Limits.ucl95 r) (Limits.lcl95 r) (Limits.ucl998 r) (Limits.lcl998 r)
    (classify r).

(** ** The output table *)

Record DataFrame : Type := mkDataFrame {
  columns : list string;
  rows : list Metrics.row
}.

(** [frame[c] = ...]: a new column goes last, an existing one keeps its
    place. *)
Definition assign (cols : list string) (c : string) : list string :=
  if in_dec string_dec c cols then cols else cols ++ [c].

(** Lines 40-44. *)
Definition empty_columns : list string :=
  ["practice_code"; "total_items"; "total_list_size";
   "rate_per_1000"; "mean_rate"; "ucl95"; "ucl998";
   "lcl95"; "lcl998"; "outlier"].

(** The columns of the grouped frame (line 57) and the assignments of lines
    59, 87-91 and 104 in program order. *)
Definition grouped_columns : list string :=
  ["practice_code"; "total_items"; "total_list_size"].

Definition assigned_columns : list string :=
  ["rate_per_1000"; "mean_rate"; "ucl95"; "lcl95"; "ucl998"; "lcl998"; "outlier"].

Definition metric_rows (grouped : list Grouped.row) : list Metrics.row :=
  let mean_rate := overall_mean grouped in
  map (fun t => with_outlier (with_limits mean_rate t)) grouped.

Definition compute_metrics (df : list Tidy.row) : DataFrame :=
  match df with
  | [] => mkDataFrame empty_columns []
  | _ :: _ =>
      mkDataFrame (fold_left assign assigned_columns grouped_columns)
                  (metric_rows (aggregate df))
  end.

(** ** Vocabulary of the specification

    The specification speaks of entities, numerators and denominators; the
    source of practices, items and list sizes.  The definitions below say
    what its phrases mean on the tidy table, so that the model can be
    compared with them. *)

(** The output columns of section 6, in its order, under the source's
    names. *)
Definition declared_columns : list string :=
  ["practice_code"; "total_items"; "total_list_size"; "rate_per_1000";
   "mean_rate"; "ucl95"; "lcl95"; "ucl998"; "lcl998"; "outlier"].

Definition sumR (xs : list R) : R := fold_right Rplus 0 xs.

(** An observation of entity [k] is retained when its numerator is not
    missing. *)
Definition retained_for (k : string) (r : Tidy.row) : bool :=
  match Tidy.practice_code r with
  | Some k' => String.eqb k' k && negb (pd.isna (Tidy.items r))
  | None => false
  end.

Definition retained (k : string) (df : list Tidy.row) : list Tidy.row :=
  filter (retained_for k) df.

(** The numerator of a retained observation: its number, 0 when it cannot
    be coerced to one. *)
Definition numerator (r : Tidy.row) : R :=
  match Tidy.items r with
  | Num x => x
  | _ => 0
  end.

(** The denominator: its number, 0 when missing or not coercible. *)
Definition denominator (r : Tidy.row) : R :=
  match Tidy.list_size r with
  | Num x => x
  | _ => 0
  end.

(** The defined entries of a column of floats. *)
Fixpoint defined (xs : list float) : list R :=
  match xs with
  | [] => []
  | Some v :: rest => v :: defined rest
  | None :: rest => defined rest
  end.

(** The unweighted arithmetic mean, undefined for no value. *)
Definition arithmetic_mean (vs : list R) : float :=
  match vs with
  | [] => None
  | _ :: _ => Some (sumR vs / INR (List.length vs))
  end.

(** Width of a control band, upper limit minus lower limit. *)
Definition band_width (upper lower : float) : float := (upper - lower)%fl.

(** The practice codes of a grouped frame, and their ascending order. *)
Definition keys (acc : list Grouped.row) : list string :=
  map Grouped.practice_code acc.

Definition key_lt (a b : Grouped.row) : Prop :=
  String.compare (Grouped.practice_code a) (Grouped.practice_code b) = Lt.

Definition ascending (acc : list Grouped.row) : Prop := StronglySorted key_lt acc.

(** The rows of practice [k]. *)
Definition has_key (k : string) (r : Tidy.row) : bool :=
  match Tidy.practice_code r with
  | Some k' => String.eqb k' k
  | None => false
  end.

(** The result row made from a grouped row of the run on [df]. *)
Definition row_for (df : list Tidy.row) (t : Grouped.row) : Metrics.row :=
  with_outlier (with_limits (overall_mean (aggregate df)) t).

(** ** Example tables *)

(** One practice whose list sizes sum to a negative number. *)
Definition df_negative : list Tidy.row :=
  [Tidy.mk (Some "A") "2024-01" (Num 5) (Num (-1000))].

(** Two practices without items and with different list sizes. *)
Definition df_no_items : list Tidy.row :=
  [Tidy.mk (Some "A") "2024-01" (Num 0) (Num 1000);
   Tidy.mk (Some "B") "2024-01" (Num 0) (Num 2000)].

(** Section 8's end-to-end example: A has 10 items and B 100, each for 1000
    patients; A's figures are spread over two months. *)
Definition df_example : list Tidy.row :=
  [Tidy.mk (Some "B") "2024-01" (Num 100) (Num 1000);
   Tidy.mk (Some "A") "2024-01" (Num 4) (Num 400);
   Tidy.mk (Some "A") "2024-02" (Num 6) (Num 600)].

(** Two practices with the same positive rate and different list sizes. *)
Definition df_same_rate : list Tidy.row :=
  [Tidy.mk (Some "A") "2024-01" (Num 10) (Num 1000);
   Tidy.mk (Some "B") "2024-01" (Num 40) (Num 4000)].

(** A practice whose only list size is missing. *)
Definition df_no_list_size : list Tidy.row :=
  [Tidy.mk (Some "C") "2024-01" (Num 7) NA].

(** Order of the practice codes of result rows. *)
Definition code_lt (a b : Metrics.row) : Prop :=
  String.compare (Metrics.practice_code a) (Metrics.practice_code b) = Lt.

(** ** Column names in [src/clean.py] *)

Module clean.

Definition mem (c : string) (names : list string) : bool :=
  if in_dec string_dec c names then true else false.

(** A Python dict with string keys, in insertion order. *)
Definition dict : Type := list (string * string).

Fixpoint dict_get (k : string) (d : dict) : option string :=
  match d with
  | [] => None
  | (k', v) :: rest => if String.eqb k' k then Some v else dict_get k rest
  end.

(** [d[k] = v]: an existing key keeps its place. *)
Fixpoint dict_set (k v : string) (d : dict) : dict :=
  match d with
  | [] => [(k, v)]
  | (k', v') :: rest =>
      if String.eqb k' k then (k, v) :: rest else (k', v') :: dict_set k v rest
  end.

(** Lines 75 and 85: [{v: k for k, v in column_map.items() if v in df.columns}]. *)
Definition rename_dict (column_map : dict) (columns : list string) : dict :=
  fold_left
    (fun d kv => if mem (snd kv) columns then dict_set (snd kv) (fst kv) d else d)
    column_map [].

(** Lines 76 and 86: [df.rename(columns=rename_dict)] on the column labels. *)
Definition rename (d : dict) (columns : list string) : list string :=
  map (fun c => match dict_get c d with Some k => k | None => c end) columns.

(** Lines 78-79 and 87-88: [if "month" not in df.columns: df["month"] = month]. *)
Definition add_month (columns : list string) : list string :=
  if mem "month" columns then columns else (columns ++ ["month"])%list.

Definition prescribing_names : list string :=
  ["practice_code"; "month"; "items"; "bnf_code"].

Definition list_size_names : list string :=
  ["practice_code"; "month"; "list_size"].

(** Line 83: the labels the prescribing frame is indexed with. *)
Definition prescribing_selection (columns : list string) : list string :=
  filter (fun c => mem c prescribing_names || negb (mem c prescribing_names)) columns.

(** Line 89: the labels the list-size frame is indexed with. *)
Definition list_size_selection (columns : list string) : list string :=
  filter (fun c => mem c list_size_names) columns.

(** Lines 75-83: the labels selected from a prescribing file. *)
Definition prescribing_labels (presc_map : dict) (columns : list string) : list string :=
  prescribing_selection (add_month (rename (rename_dict presc_map columns) columns)).

(** Lines 85-89: the labels selected from a list-size file. *)
Definition list_size_labels (list_map : dict) (columns : list string) : list string :=
  list_size_selection (add_month (rename (rename_dict list_map columns) columns)).

End clean.


(** * Properties *)

(** ** Comparisons and NaN *)

Lemma Rgtb_true (x y : R) : Rgtb x y = true <-> x > y.
Proof. unfold Rgtb. destruct (Rgt_dec x y); split; intros; try discriminate; tauto. Qed.

Lemma Rltb_true (x y : R) : Rltb x y = true <-> x < y.
Proof. unfold Rltb. destruct (Rlt_dec x y); split; intros; try discriminate; tauto. Qed.

Lemma Rleb_true (x y : R) : Rleb x y = true <-> x <= y.
Proof. unfold Rleb. destruct (Rle_dec x y); split; intros; try discriminate; tauto. Qed.

Lemma Rgtb_false (x y : R) : Rgtb x y = false <-> x <= y.
Proof. unfold Rgtb. destruct (Rgt_dec x y); split; intros; try discriminate; try lra; reflexivity. Qed.

Lemma Rleb_false (x y : R) : Rleb x y = false <-> 0 < x - y.
Proof. unfold Rleb. destruct (Rle_dec x y); split; intros; try discriminate; try lra; reflexivity. Qed.

Lemma fgt_true (a b : float) :
  (a >? b)%fl = true <-> exists x y, a = Some x /\ b = Some y /\ x > y.
Proof.
  destruct a as [x|], b as [y|]; simpl; split.
  all: try (intros H; discriminate H).
  all: try (intros (x' & y' & Ha & Hb & _); discriminate).
  - intros H. exists x, y. rewrite Rgtb_true in H. auto.
  - intros (x' & y' & Ha & Hb & H). inversion Ha; inversion Hb; subst.
    now apply Rgtb_true.
Qed.

Lemma flt_true (a b : float) :
  (a <? b)%fl = true <-> exists x y, a = Some x /\ b = Some y /\ x < y.
Proof.
  destruct a as [x|], b as [y|]; simpl; split.
  all: try (intros H; discriminate H).
  all: try (intros (x' & y' & Ha & Hb & _); discriminate).
  - intros H. exists x, y. rewrite Rltb_true in H. auto.
  - intros (x' & y' & Ha & Hb & H). inversion Ha; inversion Hb; subst.
    now apply Rltb_true.
Qed.

(** Decide the real comparisons met while running the model on numerals. *)
Ltac decide_reals :=
  repeat match goal with
  | |- context [Rgt_dec ?x ?y] => destruct (Rgt_dec x y); [ try lra | try lra ]
  | |- context [Rlt_dec ?x ?y] => destruct (Rlt_dec x y); [ try lra | try lra ]
  | |- context [Rle_dec ?x ?y] => destruct (Rle_dec x y); [ try lra | try lra ]
  | |- context [Req_dec_T ?x ?y] => destruct (Req_dec_T x y); [ try lra | try lra ]
  end.

(** ** The rate column *)

Lemma rate_of_pos (t : Grouped.row) :
  0 < Grouped.total_list_size t ->
  rate_of t = Some (Grouped.total_items t / Grouped.total_list_size t * 1000).
Proof.
  intros H. unfold rate_of, np.where_, fdiv, fmul, lift2.
  replace (Rgtb (Grouped.total_list_size t) 0) with true
    by (symmetry; apply Rgtb_true; lra).
  destruct (Req_dec_T (Grouped.total_list_size t) 0); [lra | reflexivity].
Qed.

Lemma rate_of_nonpos (t : Grouped.row) :
  Grouped.total_list_size t <= 0 -> rate_of t = None.
Proof.
  intros H. unfold rate_of, np.where_.
  replace (Rgtb (Grouped.total_list_size t) 0) with false
    by (symmetry; now apply Rgtb_false).
  reflexivity.
Qed.

Lemma rate_of_nan_iff (t : Grouped.row) :
  rate_of t = None <-> Grouped.total_list_size t <= 0.
Proof.
  split; [| apply rate_of_nonpos].
  intros H. destruct (Rle_dec (Grouped.total_list_size t) 0) as [|Hn]; [assumption|].
  rewrite rate_of_pos in H by lra. discriminate.
Qed.

(** ** Rows of the result come from the grouped rows *)

Lemma metric_rows_In (grouped : list Grouped.row) (r : Metrics.row) :
  In r (metric_rows grouped) <->
  exists t, In t grouped /\ r = with_outlier (with_limits (overall_mean grouped) t).
Proof.
  unfold metric_rows. rewrite in_map_iff. split.
  - intros (t & <- & Ht). eauto.
  - intros (t & Ht & ->). eauto.
Qed.

Lemma compute_metrics_rows (df : list Tidy.row) :
  rows (compute_metrics df) = metric_rows (aggregate df).
Proof. destruct df; reflexivity. Qed.

Lemma compute_metrics_In (df : list Tidy.row) (r : Metrics.row) :
  In r (rows (compute_metrics df)) <->
  exists t, In t (aggregate df) /\
            r = with_outlier (with_limits (overall_mean (aggregate df)) t).
Proof. rewrite compute_metrics_rows. apply metric_rows_In. Qed.

Lemma with_limits_totals (m : float) (t : Grouped.row) :
  Limits.practice_code (with_limits m t) = Grouped.practice_code t /\
  Limits.total_items (with_limits m t) = Grouped.total_items t /\
  Limits.total_list_size (with_limits m t) = Grouped.total_list_size t /\
  Limits.rate_per_1000 (with_limits m t) = rate_of t /\
  Limits.mean_rate (with_limits m t) = m.
Proof.
  unfold with_limits.
  destruct (limits m (Grouped.total_list_size t / 1000) 1.96).
  destruct (limits m (Grouped.total_list_size t / 1000) 3.09).
  simpl. auto.
Qed.

Lemma with_limits_bands (m : float) (t : Grouped.row) :
  (Limits.ucl95 (with_limits m t), Limits.lcl95 (with_limits m t)) =
    limits m (Grouped.total_list_size t / 1000) 1.96 /\
  (Limits.ucl998 (with_limits m t), Limits.lcl998 (with_limits m t)) =
    limits m (Grouped.total_list_size t / 1000) 3.09.
Proof.
  unfold with_limits.
  destruct (limits m (Grouped.total_list_size t / 1000) 1.96).
  destruct (limits m (Grouped.total_list_size t / 1000) 3.09).
  simpl. auto.
Qed.

Lemma with_outlier_fields (l : Limits.row) :
  Metrics.practice_code (with_outlier l) = Limits.practice_code l /\
  Metrics.total_items (with_outlier l) = Limits.total_items l /\
  Metrics.total_list_size (with_outlier l) = Limits.total_list_size l /\
  Metrics.rate_per_1000 (with_outlier l) = Limits.rate_per_1000 l /\
  Metrics.mean_rate (with_outlier l) = Limits.mean_rate l /\
  Metrics.outlier (with_outlier l) = classify l.
Proof. unfold with_outlier. simpl. auto 10. Qed.

(** What a result row holds, in terms of the grouped row it comes from. *)
Lemma row_of_grouped (m : float) (t : Grouped.row) :
  let r := with_outlier (with_limits m t) in
  Metrics.practice_code r = Grouped.practice_code t /\
  Metrics.total_items r = Grouped.total_items t /\
  Metrics.total_list_size r = Grouped.total_list_size t /\
  Metrics.rate_per_1000 r = rate_of t /\
  Metrics.mean_rate r = m /\
  (Metrics.ucl95 r, Metrics.lcl95 r) = limits m (Grouped.total_list_size t / 1000) 1.96 /\
  (Metrics.ucl998 r, Metrics.lcl998 r) = limits m (Grouped.total_list_size t / 1000) 3.09.
Proof.
  intros r. subst r.
  destruct (with_limits_totals m t) as (H1 & H2 & H3 & H4 & H5).
  destruct (with_limits_bands m t) as (H6 & H7).
  unfold with_outlier; simpl.
  rewrite H1, H2, H3, H4, H5. auto 10.
Qed.

(** Run the model on a table whose grouped rows are given with numerals. *)
Ltac run_model :=
  cbv [compute_metrics metric_rows overall_mean mean_skipna mean_step map fold_left
       with_outlier with_limits limits classify rate_of np.where_ np.isnan np.nan np.sqrt
       fadd fsub fmul fdiv fgt flt lift2 Rgtb Rltb Rleb orb fst snd
       Grouped.practice_code Grouped.total_items Grouped.total_list_size
       Limits.practice_code Limits.total_items Limits.total_list_size
       Limits.rate_per_1000 Limits.mean_rate Limits.ucl95 Limits.lcl95
       Limits.ucl998 Limits.lcl998];
  decide_reals.

Lemma rows_df_negative :
  rows (compute_metrics df_negative) =
  [Metrics.mk "A" 5 (-1000) None None None None None None ""].
Proof.
  rewrite compute_metrics_rows.
  change (aggregate df_negative) with [Grouped.mk "A" 5 (-1000)].
  run_model. reflexivity.
Qed.

(** C1, as the code has it: on every row of the result the rate is
    [total_items / total_list_size * 1000] when the total list size is
    positive, and it is NaN exactly when the total list size is not
    positive (zero or negative). *)
Theorem rate_per_1000_defined_iff_positive (df : list Tidy.row) (r : Metrics.row) :
  In r (rows (compute_metrics df)) ->
  (0 < Metrics.total_list_size r ->
   Metrics.rate_per_1000 r =
     Some (Metrics.total_items r / Metrics.total_list_size r * 1000)) /\
  (Metrics.rate_per_1000 r = None <-> Metrics.total_list_size r <= 0).
Proof.
  intros Hr. apply compute_metrics_In in Hr. destruct Hr as (t & _ & ->).
  destruct (row_of_grouped (overall_mean (aggregate df)) t)
    as (_ & Hi & Hl & Hrate & _).
  rewrite Hi, Hl, Hrate. split.
  - apply rate_of_pos.
  - apply rate_of_nan_iff.
Qed.

Lemma rate_per_1000_defined_iff_positive_witness :
  let r := Metrics.mk "A" 5 (-1000) None None None None None None "" in
  In r (rows (compute_metrics df_negative)) /\
  (0 < Metrics.total_list_size r ->
   Metrics.rate_per_1000 r =
     Some (Metrics.total_items r / Metrics.total_list_size r * 1000)) /\
  (Metrics.rate_per_1000 r = None <-> Metrics.total_list_size r <= 0).
Proof.
  intros r.
  assert (H : In r (rows (compute_metrics df_negative)))
    by (rewrite rows_df_negative; left; reflexivity).
  split; [exact H | exact (rate_per_1000_defined_iff_positive df_negative r H)].
Defined.

(** C1 as stated fails: a practice whose list sizes sum to -1000 has a NaN
    rate although its total list size is not 0. *)
Lemma rate_nan_with_nonzero_list_size :
  exists r, In r (rows (compute_metrics df_negative)) /\
            Metrics.rate_per_1000 r = None /\
            Metrics.total_list_size r <> 0.
Proof.
  exists (Metrics.mk "A" 5 (-1000) None None None None None None "").
  rewrite rows_df_negative. simpl. repeat split; auto. lra.
Qed.

(** ** Control limits *)

Lemma limits_nan (m : float) (s z : R) :
  s <= 0 \/ m = None -> limits m s z = (None, None).
Proof.
  intros H. unfold limits.
  destruct H as [H | ->].
  - replace (Rleb s 0) with true by (symmetry; now apply Rleb_true). reflexivity.
  - simpl. now rewrite orb_true_r.
Qed.

Lemma limits_defined (v s z : R) :
  0 < s ->
  limits (Some v) s z =
    ((Some v + Some z * np.sqrt (Some v / Some s))%fl,
     (Some v - Some z * np.sqrt (Some v / Some s))%fl).
Proof.
  intros H. unfold limits.
  replace (Rleb s 0) with false by (symmetry; apply Rleb_false; lra).
  reflexivity.
Qed.

Lemma limits_real (v s z : R) :
  0 < s -> 0 <= v ->
  limits (Some v) s z = (Some (v + z * sqrt (v / s)), Some (v - z * sqrt (v / s))).
Proof.
  intros Hs Hv. rewrite limits_defined by assumption.
  unfold fdiv, np.sqrt, fadd, fsub, fmul, lift2.
  destruct (Req_dec_T s 0); [lra|].
  assert (0 <= v / s) by (apply Rmult_le_pos; [lra | left; now apply Rinv_0_lt_compat]).
  destruct (Rlt_dec (v / s) 0); [lra | reflexivity].
Qed.

Lemma limits_negative_mean (v s z : R) :
  0 < s -> v < 0 -> limits (Some v) s z = (None, None).
Proof.
  intros Hs Hv. rewrite limits_defined by assumption.
  unfold fdiv, np.sqrt, fadd, fsub, fmul, lift2.
  destruct (Req_dec_T s 0); [lra|].
  assert (v / s < 0).
  { unfold Rdiv. pose proof (Rinv_0_lt_compat s Hs). nra. }
  destruct (Rlt_dec (v / s) 0); [reflexivity | lra].
Qed.

Lemma result_columns (df : list Tidy.row) (c : string) :
  In c (columns (compute_metrics df)) <-> In c declared_columns.
Proof.
  destruct df; cbn -[In]; unfold declared_columns; simpl; tauto.
Qed.

Lemma row_for_In (df : list Tidy.row) (t : Grouped.row) :
  In t (aggregate df) -> In (row_for df t) (rows (compute_metrics df)).
Proof. intros H. apply compute_metrics_In. exists t. split; [exact H | reflexivity]. Qed.

(** C2: on every row of the result, with [s = total_list_size / 1000] and
    [m] the mean rate: when [s > 0] and [m] is not NaN the four limits are
    [m + z * sqrt (m / s)] and [m - z * sqrt (m / s)] in float arithmetic,
    with [z = 1.96] for the 95% pair and [z = 3.09] for the 99.8% pair (for
    [m >= 0] these are the real numbers of the same formula); when [s <= 0]
    or [m] is NaN all four are NaN; and the table has the four limit
    columns.  [compute_metrics] is a total function: nothing is raised. *)
Theorem control_limits_spec (df : list Tidy.row) (r : Metrics.row) :
  In r (rows (compute_metrics df)) ->
  let s := Metrics.total_list_size r / 1000 in
  let m := Metrics.mean_rate r in
  (0 < s -> m <> None ->
   Metrics.ucl95 r = (m + Some 1.96 * np.sqrt (m / Some s))%fl /\
   Metrics.lcl95 r = (m - Some 1.96 * np.sqrt (m / Some s))%fl /\
   Metrics.ucl998 r = (m + Some 3.09 * np.sqrt (m / Some s))%fl /\
   Metrics.lcl998 r = (m - Some 3.09 * np.sqrt (m / Some s))%fl) /\
  (forall v, 0 < s -> m = Some v -> 0 <= v ->
   Metrics.ucl95 r = Some (v + 1.96 * sqrt (v / s)) /\
   Metrics.lcl95 r = Some (v - 1.96 * sqrt (v / s)) /\
   Metrics.ucl998 r = Some (v + 3.09 * sqrt (v / s)) /\
   Metrics.lcl998 r = Some (v - 3.09 * sqrt (v / s))) /\
  (s <= 0 \/ m = None ->
   Metrics.ucl95 r = None /\ Metrics.lcl95 r = None /\
   Metrics.ucl998 r = None /\ Metrics.lcl998 r = None) /\
  (In "ucl95" (columns (compute_metrics df)) /\
   In "lcl95" (columns (compute_metrics df)) /\
   In "ucl998" (columns (compute_metrics df)) /\
   In "lcl998" (columns (compute_metrics df))).
Proof.
  intros Hr s m. apply compute_metrics_In in Hr. destruct Hr as (t & _ & Er).
  destruct (row_of_grouped (overall_mean (aggregate df)) t)
    as (_ & _ & Hl & _ & Hm & H95 & H998).
  rewrite <- Er in Hl, Hm, H95, H998.
  assert (Es : Grouped.total_list_size t / 1000 = s) by (unfold s; now rewrite Hl).
  rewrite Es in H95, H998. fold m in Hm. rewrite <- Hm in H95, H998.
  repeat split.
  - destruct m as [v|] eqn:Em; [|congruence].
    rewrite limits_defined in H95 by assumption. now inversion H95.
  - destruct m as [v|] eqn:Em; [|congruence].
    rewrite limits_defined in H95 by assumption. now inversion H95.
  - destruct m as [v|] eqn:Em; [|congruence].
    rewrite limits_defined in H998 by assumption. now inversion H998.
  - destruct m as [v|] eqn:Em; [|congruence].
    rewrite limits_defined in H998 by assumption. now inversion H998.
  - rewrite H0, limits_real in H95 by assumption. now inversion H95.
  - rewrite H0, limits_real in H95 by assumption. now inversion H95.
  - rewrite H0, limits_real in H998 by assumption. now inversion H998.
  - rewrite H0, limits_real in H998 by assumption. now inversion H998.
  - rewrite limits_nan in H95 by assumption. now inversion H95.
  - rewrite limits_nan in H95 by assumption. now inversion H95.
  - rewrite limits_nan in H998 by assumption. now inversion H998.
  - rewrite limits_nan in H998 by assumption. now inversion H998.
  - apply result_columns; simpl; tauto.
  - apply result_columns; simpl; tauto.
  - apply result_columns; simpl; tauto.
  - apply result_columns; simpl; tauto.
Qed.

Lemma aggregate_df_same_rate :
  aggregate df_same_rate = [Grouped.mk "A" 10 1000; Grouped.mk "B" 40 4000].
Proof. reflexivity. Qed.

Lemma mean_df_same_rate : overall_mean (aggregate df_same_rate) = Some 10.
Proof.
  rewrite aggregate_df_same_rate. run_model. f_equal. simpl INR. lra.
Qed.

Lemma control_limits_spec_witness :
  exists r,
    In r (rows (compute_metrics df_same_rate)) /\
    Metrics.practice_code r = "A" /\
    Metrics.mean_rate r = Some 10 /\
    Metrics.ucl95 r = Some (10 + 1.96 * sqrt (10 / (1000 / 1000))) /\
    Metrics.lcl95 r = Some (10 - 1.96 * sqrt (10 / (1000 / 1000))) /\
    Metrics.ucl998 r = Some (10 + 3.09 * sqrt (10 / (1000 / 1000))) /\
    Metrics.lcl998 r = Some (10 - 3.09 * sqrt (10 / (1000 / 1000))).
Proof.
  set (t := Grouped.mk "A" 10 1000).
  assert (Hin : In (row_for df_same_rate t) (rows (compute_metrics df_same_rate))).
  { apply row_for_In. rewrite aggregate_df_same_rate. left. reflexivity. }
  exists (row_for df_same_rate t).
  destruct (row_of_grouped (overall_mean (aggregate df_same_rate)) t)
    as (Hc & _ & Hl & _ & Hm & _).
  fold (row_for df_same_rate t) in Hc, Hl, Hm.
  rewrite mean_df_same_rate in Hm.
  destruct (control_limits_spec df_same_rate _ Hin) as (_ & Hreal & _).
  rewrite Hl in Hreal. simpl Grouped.total_list_size in Hreal.
  specialize (Hreal 10 ltac:(lra) Hm ltac:(lra)).
  repeat split; try assumption; apply Hreal.
Defined.

(** ** Classification *)

Lemma classify_cases (l : Limits.row) :
  (classify l = "high" /\ (Limits.rate_per_1000 l >? Limits.ucl998 l)%fl = true) \/
  (classify l = "low" /\ (Limits.rate_per_1000 l >? Limits.ucl998 l)%fl = false /\
     (Limits.rate_per_1000 l <? Limits.lcl998 l)%fl = true) \/
  (classify l = "" /\ (Limits.rate_per_1000 l >? Limits.ucl998 l)%fl = false /\
     (Limits.rate_per_1000 l <? Limits.lcl998 l)%fl = false).
Proof.
  unfold classify.
  destruct (Limits.rate_per_1000 l) as [x|]; cbn [np.isnan].
  - destruct (Some x >? Limits.ucl998 l)%fl eqn:Hgt; [left; auto|].
    destruct (Some x <? Limits.lcl998 l)%fl eqn:Hlt; [right; left; auto|].
    right; right; auto.
  - right; right; auto.
Qed.

(** The lower limit never exceeds the upper one. *)
Lemma limits_order (m : float) (s z u l : R) :
  0 <= z -> limits m s z = (Some u, Some l) -> l <= u.
Proof.
  intros Hz. unfold limits.
  destruct (Rleb s 0 || np.isnan m); [discriminate|].
  destruct m as [v|]; [|discriminate].
  unfold fdiv, np.sqrt, fadd, fsub, fmul, lift2.
  destruct (Req_dec_T s 0); [discriminate|].
  destruct (Rlt_dec (v / s) 0); [discriminate|].
  intros H. inversion H; subst.
  pose proof (sqrt_pos (v / s)). nra.
Qed.

Lemma row_limits_order (m : float) (t : Grouped.row) (u l : R) :
  Metrics.ucl998 (with_outlier (with_limits m t)) = Some u ->
  Metrics.lcl998 (with_outlier (with_limits m t)) = Some l ->
  l <= u.
Proof.
  intros Hu Hl.
  destruct (row_of_grouped m t) as (_ & _ & _ & _ & _ & _ & H).
  rewrite Hu, Hl in H. symmetry in H.
  apply limits_order in H; [assumption | lra].
Qed.

Lemma row_outlier (m : float) (t : Grouped.row) :
  let r := with_outlier (with_limits m t) in
  (Metrics.outlier r = "high" /\
     (Metrics.rate_per_1000 r >? Metrics.ucl998 r)%fl = true) \/
  (Metrics.outlier r = "low" /\
     (Metrics.rate_per_1000 r >? Metrics.ucl998 r)%fl = false /\
     (Metrics.rate_per_1000 r <? Metrics.lcl998 r)%fl = true) \/
  (Metrics.outlier r = "" /\
     (Metrics.rate_per_1000 r >? Metrics.ucl998 r)%fl = false /\
     (Metrics.rate_per_1000 r <? Metrics.lcl998 r)%fl = false).
Proof. exact (classify_cases (with_limits m t)). Qed.

(** The label of a result row, read off its own three columns. *)
Lemma row_outlier_iff (df : list Tidy.row) (r : Metrics.row) :
  In r (rows (compute_metrics df)) ->
  (Metrics.outlier r = "high" <->
     (Metrics.rate_per_1000 r >? Metrics.ucl998 r)%fl = true) /\
  (Metrics.outlier r = "low" <->
     (Metrics.rate_per_1000 r <? Metrics.lcl998 r)%fl = true) /\
  (Metrics.outlier r = "" <->
     (Metrics.rate_per_1000 r >? Metrics.ucl998 r)%fl = false /\
     (Metrics.rate_per_1000 r <? Metrics.lcl998 r)%fl = false).
Proof.
  intros Hr. apply compute_metrics_In in Hr. destruct Hr as (t & _ & ->).
  set (m := overall_mean (aggregate df)).
  assert (Hexcl : (Metrics.rate_per_1000 (with_outlier (with_limits m t))
                   <? Metrics.lcl998 (with_outlier (with_limits m t)))%fl = true ->
                  (Metrics.rate_per_1000 (with_outlier (with_limits m t))
                   >? Metrics.ucl998 (with_outlier (with_limits m t)))%fl = false).
  { intros Hlt. apply flt_true in Hlt. destruct Hlt as (x & l & Hx & Hl & Hxl).
    destruct (Metrics.ucl998 (with_outlier (with_limits m t))) as [u|] eqn:Hu.
    - pose proof (row_limits_order m t u l Hu Hl).
      rewrite Hx. simpl. apply Rgtb_false. lra.
    - rewrite Hx. reflexivity. }
  destruct (row_outlier m t) as [(E & G) | [(E & G & L) | (E & G & L)]];
    rewrite E; (split; [|split]); split; intros H;
    try discriminate H; try reflexivity; try assumption.
  - specialize (Hexcl H). congruence.
  - destruct H; congruence.
  - congruence.
  - destruct H; congruence.
  - congruence.
  - congruence.
  - split; assumption.
Qed.

(** ** The end-to-end example *)

Lemma sqrt_55_bounds : 7.416 < sqrt 55 < 7.417.
Proof.
  split.
  - rewrite <- (sqrt_square 7.416) by lra. apply sqrt_lt_1_alt. lra.
  - rewrite <- (sqrt_square 7.417) by lra. apply sqrt_lt_1_alt. lra.
Qed.

Lemma mean_of_example :
  overall_mean [Grouped.mk "A" 10 1000; Grouped.mk "B" 100 1000] = Some 55.
Proof. run_model. f_equal. simpl INR. lra. Qed.

Lemma limits_of_example (z : R) :
  limits (Some 55) (1000 / 1000) z = (Some (55 + z * sqrt 55), Some (55 - z * sqrt 55)).
Proof.
  rewrite limits_real by lra.
  replace (55 / (1000 / 1000)) with 55 by lra. reflexivity.
Qed.

(** C6: whenever the grouped totals are A = (10, 1000) and B = (100, 1000),
    the result has the rows of A and B with rates 10 and 100, mean rate 55,
    standard error [sqrt 55] (about 7.416) for both, upper 99.8% limit
    [55 + 3.09 * sqrt 55] (77.9 to one decimal) and lower 99.8% limit
    [55 - 3.09 * sqrt 55] (32.1 to one decimal); B is labelled high and A
    low. *)
Theorem end_to_end_example (df : list Tidy.row) :
  aggregate df = [Grouped.mk "A" 10 1000; Grouped.mk "B" 100 1000] ->
  exists a b,
    rows (compute_metrics df) = [a; b] /\
    Metrics.practice_code a = "A" /\ Metrics.practice_code b = "B" /\
    Metrics.rate_per_1000 a = Some 10 /\ Metrics.rate_per_1000 b = Some 100 /\
    Metrics.mean_rate a = Some 55 /\ Metrics.mean_rate b = Some 55 /\
    np.sqrt (Metrics.mean_rate a / Some (Metrics.total_list_size a / 1000)%R)%fl
      = Some (sqrt 55) /\
    np.sqrt (Metrics.mean_rate b / Some (Metrics.total_list_size b / 1000)%R)%fl
      = Some (sqrt 55) /\
    7.416 < sqrt 55 < 7.417 /\
    Metrics.ucl998 a = Some (55 + 3.09 * sqrt 55) /\
    Metrics.ucl998 b = Some (55 + 3.09 * sqrt 55) /\
    Metrics.lcl998 a = Some (55 - 3.09 * sqrt 55) /\
    Metrics.lcl998 b = Some (55 - 3.09 * sqrt 55) /\
    77.85 < 55 + 3.09 * sqrt 55 < 77.95 /\
    32.05 < 55 - 3.09 * sqrt 55 < 32.15 /\
    Metrics.outlier b = "high" /\ Metrics.outlier a = "low".
Proof.
  intros Hagg.
  set (tA := Grouped.mk "A" 10 1000) in *.
  set (tB := Grouped.mk "B" 100 1000) in *.
  pose proof sqrt_55_bounds as Hsq.
  exists (with_outlier (with_limits (Some 55) tA)),
         (with_outlier (with_limits (Some 55) tB)).
  assert (Hrows : rows (compute_metrics df) =
                  [with_outlier (with_limits (Some 55) tA);
                   with_outlier (with_limits (Some 55) tB)]).
  { rewrite compute_metrics_rows, Hagg. unfold metric_rows.
    rewrite (mean_of_example : overall_mean [tA; tB] = Some 55). reflexivity. }
  destruct (row_of_grouped (Some 55) tA) as (Ac & _ & Al & Ar & Am & _ & A998).
  destruct (row_of_grouped (Some 55) tB) as (Bc & _ & Bl & Br & Bm & _ & B998).
  simpl Grouped.total_list_size in *. simpl Grouped.practice_code in *.
  rewrite limits_of_example in A998, B998.
  pose proof (f_equal fst A998) as Au. pose proof (f_equal snd A998) as Alo.
  pose proof (f_equal fst B998) as Bu. pose proof (f_equal snd B998) as Blo.
  cbn [fst snd] in Au, Alo, Bu, Blo.
  assert (RA : rate_of tA = Some 10).
  { rewrite rate_of_pos by (simpl; lra). simpl. f_equal. lra. }
  assert (RB : rate_of tB = Some 100).
  { rewrite rate_of_pos by (simpl; lra). simpl. f_equal. lra. }
  rewrite RA in Ar. rewrite RB in Br.
  assert (Hse : np.sqrt (Some 55 / Some (1000 / 1000)%R)%fl = Some (sqrt 55)).
  { unfold fdiv, np.sqrt. destruct (Req_dec_T (1000 / 1000) 0); [lra|].
    replace (55 / (1000 / 1000)) with 55 by lra.
    destruct (Rlt_dec 55 0); [lra | reflexivity]. }
  assert (InA : In (with_outlier (with_limits (Some 55) tA)) (rows (compute_metrics df)))
    by (rewrite Hrows; simpl; auto).
  assert (InB : In (with_outlier (with_limits (Some 55) tB)) (rows (compute_metrics df)))
    by (rewrite Hrows; simpl; auto).
  split; [exact Hrows|].
  split; [exact Ac|]. split; [exact Bc|].
  split; [exact Ar|]. split; [exact Br|].
  split; [exact Am|]. split; [exact Bm|].
  split; [rewrite Am, Al; exact Hse|].
  split; [rewrite Bm, Bl; exact Hse|].
  split; [exact Hsq|].
  split; [exact Au|]. split; [exact Bu|].
  split; [exact Alo|]. split; [exact Blo|].
  split; [lra|]. split; [lra|].
  split.
  - apply (row_outlier_iff df _ InB). rewrite Br, Bu. simpl.
    apply Rgtb_true. lra.
  - apply (row_outlier_iff df _ InA). rewrite Ar, Alo. simpl.
    apply Rltb_true. lra.
Qed.

Lemma aggregate_df_example :
  aggregate df_example = [Grouped.mk "A" 10 1000; Grouped.mk "B" 100 1000].
Proof.
  change (aggregate df_example)
    with [Grouped.mk "A" (4 + 6) (400 + 600); Grouped.mk "B" 100 1000].
  repeat f_equal; lra.
Qed.

Lemma end_to_end_example_witness :
  exists a b,
    rows (compute_metrics df_example) = [a; b] /\
    Metrics.rate_per_1000 a = Some 10 /\ Metrics.rate_per_1000 b = Some 100 /\
    Metrics.mean_rate a = Some 55 /\
    Metrics.outlier b = "high" /\ Metrics.outlier a = "low".
Proof.
  destruct (end_to_end_example df_example aggregate_df_example)
    as (a & b & H).
  exists a, b. tauto.
Defined.

(** ** The outlier column *)

Lemma rows_keep_every_practice (df : list Tidy.row) :
  map Metrics.practice_code (rows (compute_metrics df)) =
    map Grouped.practice_code (aggregate df) /\
  map Metrics.rate_per_1000 (rows (compute_metrics df)) =
    map rate_of (aggregate df).
Proof.
  rewrite compute_metrics_rows. unfold metric_rows.
  rewrite !map_map. split; apply map_ext; intros t.
  - apply (row_of_grouped (overall_mean (aggregate df)) t).
  - apply (row_of_grouped (overall_mean (aggregate df)) t).
Qed.

(** C3: on every row of the result the label is ["high"] exactly when the
    rate is a number strictly above [ucl998], ["low"] exactly when it is a
    number strictly below [lcl998], and the empty label (the specification's
    [none]) otherwise; so a rate equal to either limit, and a NaN rate, get
    the empty label.  Every grouped practice keeps its row, whatever its
    rate.  Two rows with the same rate and 99.8% limits, of any two runs,
    get the same label. *)
Theorem outlier_flag_spec (df : list Tidy.row) (r : Metrics.row) :
  In r (rows (compute_metrics df)) ->
  (Metrics.outlier r = "high" <->
     exists x u, Metrics.rate_per_1000 r = Some x /\
                 Metrics.ucl998 r = Some u /\ x > u) /\
  (Metrics.outlier r = "low" <->
     exists x l, Metrics.rate_per_1000 r = Some x /\
                 Metrics.lcl998 r = Some l /\ x < l) /\
  (Metrics.outlier r <> "high" -> Metrics.outlier r <> "low" ->
     Metrics.outlier r = "") /\
  (Metrics.rate_per_1000 r = Metrics.ucl998 r \/
   Metrics.rate_per_1000 r = Metrics.lcl998 r -> Metrics.outlier r = "") /\
  (Metrics.rate_per_1000 r = None -> Metrics.outlier r = "") /\
  (map Metrics.practice_code (rows (compute_metrics df)) =
     map Grouped.practice_code (aggregate df) /\
   map Metrics.rate_per_1000 (rows (compute_metrics df)) =
     map rate_of (aggregate df)) /\
  (forall df' r',
     In r' (rows (compute_metrics df')) ->
     Metrics.rate_per_1000 r' = Metrics.rate_per_1000 r ->
     Metrics.ucl998 r' = Metrics.ucl998 r ->
     Metrics.lcl998 r' = Metrics.lcl998 r ->
     Metrics.outlier r' = Metrics.outlier r).
Proof.
  intros Hr.
  destruct (row_outlier_iff df r Hr) as (Hh & Hl & Hn).
  assert (Hcases : Metrics.outlier r = "high" \/ Metrics.outlier r = "low" \/
                   Metrics.outlier r = "").
  { destruct (Metrics.rate_per_1000 r >? Metrics.ucl998 r)%fl eqn:G.
    - left. now apply Hh.
    - destruct (Metrics.rate_per_1000 r <? Metrics.lcl998 r)%fl eqn:L.
      + right; left. now apply Hl.
      + right; right. apply Hn. auto. }
  split; [rewrite Hh; apply fgt_true|].
  split; [rewrite Hl; apply flt_true|].
  split; [intros N1 N2; destruct Hcases as [H|[H|H]]; congruence|].
  split.
  { intros Heq. apply Hn.
    destruct (Metrics.rate_per_1000 r) as [x|] eqn:Ex; [|split; reflexivity].
    destruct (Metrics.ucl998 r) as [u|] eqn:Eu;
      destruct (Metrics.lcl998 r) as [l|] eqn:El; simpl;
      try (destruct Heq as [Heq|Heq]; discriminate Heq).
    - apply compute_metrics_In in Hr. destruct Hr as (t & _ & ->).
      pose proof (row_limits_order _ _ _ _ Eu El) as Hord.
      destruct Heq as [Heq|Heq]; inversion Heq; subst; split.
      + apply Rgtb_false; lra.
      + unfold Rltb. destruct (Rlt_dec u l); [lra | reflexivity].
      + apply Rgtb_false; lra.
      + unfold Rltb. destruct (Rlt_dec l l); [lra | reflexivity].
    - destruct Heq as [Heq|Heq]; inversion Heq; subst. split; [|reflexivity].
      apply Rgtb_false; lra.
    - destruct Heq as [Heq|Heq]; inversion Heq; subst. split; [reflexivity|].
      unfold Rltb. destruct (Rlt_dec l l); [lra | reflexivity]. }
  split.
  { intros Hnan. apply Hn. rewrite Hnan. split; reflexivity. }
  split; [apply rows_keep_every_practice|].
  intros df' r' Hr' E1 E2 E3.
  destruct (row_outlier_iff df' r' Hr') as (Hh' & Hl' & Hn').
  rewrite E1, E2, E3 in *.
  destruct Hcases as [H|[H|H]]; rewrite H.
  - apply Hh'. now apply Hh.
  - apply Hl'. now apply Hl.
  - apply Hn'. now apply Hn.
Qed.

Lemma outlier_flag_spec_witness :
  exists a b,
    rows (compute_metrics df_example) = [a; b] /\
    (Metrics.outlier b = "high" <->
       exists x u, Metrics.rate_per_1000 b = Some x /\
                   Metrics.ucl998 b = Some u /\ x > u) /\
    (Metrics.outlier a = "low" <->
       exists x l, Metrics.rate_per_1000 a = Some x /\
                   Metrics.lcl998 a = Some l /\ x < l).
Proof.
  assert (Hrows : rows (compute_metrics df_example) =
                  [with_outlier (with_limits (Some 55) (Grouped.mk "A" 10 1000));
                   with_outlier (with_limits (Some 55) (Grouped.mk "B" 100 1000))]).
  { rewrite compute_metrics_rows, aggregate_df_example. unfold metric_rows.
    rewrite mean_of_example. reflexivity. }
  eexists. eexists. split; [exact Hrows|]. split.
  - apply (outlier_flag_spec df_example). rewrite Hrows. simpl; auto.
  - apply (outlier_flag_spec df_example). rewrite Hrows. simpl; auto.
Defined.

(** ** Columns of the result *)

Lemma nonempty_columns (r : Tidy.row) (df : list Tidy.row) :
  columns (compute_metrics (r :: df)) =
  ["practice_code"; "total_items"; "total_list_size"; "rate_per_1000";
   "mean_rate"; "ucl95"; "lcl95"; "ucl998"; "lcl998"; "outlier"].
Proof. reflexivity. Qed.

(** C9: on the empty table [compute_metrics] returns a table without rows
    whose columns are, without repetition, exactly the ten declared ones
    (practice_code, total_items, total_list_size, rate_per_1000, mean_rate,
    the four limits and outlier).  It is a value of the result type, not an
    error or an absent result. *)
Theorem empty_input_result :
  rows (compute_metrics []) = [] /\
  NoDup (columns (compute_metrics [])) /\
  List.length (columns (compute_metrics [])) = 10%nat /\
  forall c, In c (columns (compute_metrics [])) <-> In c declared_columns.
Proof.
  split; [reflexivity|]. split; [|split; [reflexivity|]].
  - cbn. unfold empty_columns.
    repeat (constructor; [simpl; intros H; repeat destruct H as [H|H]; try discriminate H; exact H|]).
    constructor.
  - intros c. apply result_columns.
Qed.

(** C10: the empty table and any table with a row give the same ten
    columns in two different orders: the empty case has ucl95, ucl998,
    lcl95, lcl998 where every other case has ucl95, lcl95, ucl998, lcl998. *)
Theorem column_order_differs (df : list Tidy.row) :
  df <> [] ->
  columns (compute_metrics []) =
    ["practice_code"; "total_items"; "total_list_size"; "rate_per_1000";
     "mean_rate"; "ucl95"; "ucl998"; "lcl95"; "lcl998"; "outlier"] /\
  columns (compute_metrics df) =
    ["practice_code"; "total_items"; "total_list_size"; "rate_per_1000";
     "mean_rate"; "ucl95"; "lcl95"; "ucl998"; "lcl998"; "outlier"] /\
  (forall c, In c (columns (compute_metrics df)) <->
             In c (columns (compute_metrics []))) /\
  columns (compute_metrics df) <> columns (compute_metrics []).
Proof.
  intros Hne. destruct df as [|r df]; [congruence|].
  split; [reflexivity|]. split; [apply nonempty_columns|]. split.
  - intros c. rewrite !result_columns. tauto.
  - rewrite nonempty_columns. cbn. unfold empty_columns. intros H.
    discriminate H.
Qed.

Lemma column_order_differs_witness :
  df_example <> [] /\
  columns (compute_metrics df_example) <> columns (compute_metrics []).
Proof.
  assert (H : df_example <> []) by (unfold df_example; discriminate).
  split; [exact H | apply (column_order_differs df_example H)].
Defined.

(** ** Aggregation *)

(** *** Order of practice codes *)

Lemma ascii_compare_refl (a : ascii) : Ascii.compare a a = Eq.
Proof. unfold Ascii.compare. apply N.compare_refl. Qed.

Lemma string_compare_refl (s : string) : String.compare s s = Eq.
Proof.
  induction s as [|a s IH]; simpl; [reflexivity|].
  now rewrite ascii_compare_refl.
Qed.

Lemma string_compare_lt_trans (a b c : string) :
  String.compare a b = Lt -> String.compare b c = Lt -> String.compare a c = Lt.
Proof.
  revert b c.
  induction a as [|x a IH]; intros [|y b] [|z c]; simpl; try discriminate; auto.
  destruct (Ascii.compare x y) eqn:Exy; try discriminate;
    destruct (Ascii.compare y z) eqn:Eyz; try discriminate; intros H1 H2.
  - apply Ascii.compare_eq_iff in Exy, Eyz. subst.
    rewrite ascii_compare_refl. eauto.
  - apply Ascii.compare_eq_iff in Exy. subst. now rewrite Eyz.
  - apply Ascii.compare_eq_iff in Eyz. subst. now rewrite Exy.
  - unfold Ascii.compare in *. rewrite N.compare_lt_iff in Exy, Eyz.
    replace (N_of_ascii x ?= N_of_ascii z)%N with Lt; [reflexivity|].
    symmetry. apply N.compare_lt_iff. lia.
Qed.

Lemma string_compare_gt_lt (a b : string) :
  String.compare a b = Gt -> String.compare b a = Lt.
Proof.
  intros H. rewrite String.compare_antisym, H. reflexivity.
Qed.

Lemma string_compare_lt_neq (a b : string) :
  String.compare a b = Lt -> a <> b.
Proof. intros H ->. rewrite string_compare_refl in H. discriminate. Qed.

Lemma string_compare_gt_neq (a b : string) :
  String.compare a b = Gt -> a <> b.
Proof. intros H ->. rewrite string_compare_refl in H. discriminate. Qed.

Lemma ascending_tail_above (t : Grouped.row) (rest : list Grouped.row) :
  ascending (t :: rest) -> forall t', In t' rest -> key_lt t t'.
Proof.
  intros H t' Hin. apply StronglySorted_inv in H. destruct H as (_ & H).
  rewrite Forall_forall in H. now apply H.
Qed.

Lemma ascending_NoDup (acc : list Grouped.row) :
  ascending acc -> NoDup (keys acc).
Proof.
  induction acc as [|t rest IH]; intros H; simpl; constructor.
  - intros Hin. unfold keys in Hin. apply in_map_iff in Hin.
    destruct Hin as (t' & Hk & Hin).
    apply (ascending_tail_above t rest H) in Hin.
    apply string_compare_lt_neq in Hin. congruence.
  - apply IH. apply StronglySorted_inv in H. tauto.
Qed.

(** *** One step of the grouped sum *)

Lemma upsert_keys (k : string) (i l : R) (acc : list Grouped.row) (k' : string) :
  In k' (keys (upsert k i l acc)) <-> k' = k \/ In k' (keys acc).
Proof.
  induction acc as [|t rest IH]; simpl.
  - intuition.
  - destruct (String.compare k (Grouped.practice_code t)) eqn:E; simpl.
    + apply String.compare_eq_iff in E. subst k. intuition.
    + intuition.
    + rewrite IH. intuition.
Qed.

Lemma upsert_ascending (k : string) (i l : R) (acc : list Grouped.row) :
  ascending acc -> ascending (upsert k i l acc).
Proof.
  unfold ascending.
  induction acc as [|t rest IH]; intros H; simpl.
  - repeat constructor.
  - pose proof (ascending_tail_above t rest H) as Habove.
    apply StronglySorted_inv in H. destruct H as (Hrest & Hall).
    destruct (String.compare k (Grouped.practice_code t)) eqn:E.
    + apply String.compare_eq_iff in E. subst k.
      constructor; [assumption|].
      rewrite Forall_forall. intros t' Hin. exact (Habove t' Hin).
    + constructor; [constructor; assumption|].
      constructor; [exact E|].
      rewrite Forall_forall. intros t' Hin.
      unfold key_lt; simpl.
      eapply string_compare_lt_trans; [exact E | exact (Habove t' Hin)].
    + constructor; [now apply IH|].
      rewrite Forall_forall. intros t' Hin.
      assert (Hk : In (Grouped.practice_code t') (keys (upsert k i l rest)))
        by (unfold keys; now apply in_map).
      apply upsert_keys in Hk. destruct Hk as [Hk | Hk].
      * unfold key_lt. rewrite Hk. now apply string_compare_gt_lt.
      * unfold keys in Hk. apply in_map_iff in Hk.
        destruct Hk as (t'' & Hc & Hin'').
        unfold key_lt. rewrite <- Hc. exact (Habove t'' Hin'').
Qed.

(** Where an entry of the frame after the step comes from. *)
Lemma upsert_In (k : string) (i l : R) (acc : list Grouped.row) (t' : Grouped.row) :
  ascending acc ->
  In t' (upsert k i l acc) ->
  (In t' acc /\ Grouped.practice_code t' <> k) \/
  (exists t, In t acc /\ Grouped.practice_code t = k /\
             t' = Grouped.mk k (Grouped.total_items t + i)
                               (Grouped.total_list_size t + l)) \/
  (~ In k (keys acc) /\ t' = Grouped.mk k i l).
Proof.
  induction acc as [|t rest IH]; intros Hasc Hin; simpl in Hin.
  - destruct Hin as [<- | []]. right; right. split; [intros []|reflexivity].
  - pose proof (ascending_tail_above t rest Hasc) as Habove.
    assert (Hrest : ascending rest)
      by (apply StronglySorted_inv in Hasc; tauto).
    destruct (String.compare k (Grouped.practice_code t)) eqn:E.
    + apply String.compare_eq_iff in E.
      destruct Hin as [<- | Hin].
      * right; left. exists t. simpl. auto.
      * left. split; [now right|].
        apply Habove in Hin. apply string_compare_lt_neq in Hin. congruence.
    + assert (Hfresh : forall t0, In t0 (t :: rest) -> Grouped.practice_code t0 <> k).
      { intros t0 [<- | H0].
        - apply not_eq_sym. now apply string_compare_lt_neq.
        - apply not_eq_sym. apply string_compare_lt_neq.
          eapply string_compare_lt_trans; [exact E | exact (Habove t0 H0)]. }
      destruct Hin as [<- | Hin].
      * right; right. split; [|reflexivity].
        intros Hk. unfold keys in Hk. apply in_map_iff in Hk.
        destruct Hk as (t0 & Hc & H0). exact (Hfresh t0 H0 Hc).
      * left. split; [exact Hin | now apply Hfresh].
    + assert (Hneq : Grouped.practice_code t <> k)
        by (apply not_eq_sym; now apply string_compare_gt_neq).
      destruct Hin as [<- | Hin].
      * left. split; [now left | exact Hneq].
      * destruct (IH Hrest Hin) as [(H1 & H2) | [(t0 & H1 & H2 & H3) | (H1 & H2)]].
        -- left. split; [now right | exact H2].
        -- right; left. exists t0. split; [now right | auto].
        -- right; right. split; [|exact H2].
           simpl. intros [Hk | Hk]; [exact (Hneq Hk) | exact (H1 Hk)].
Qed.

(** *** The grouped sum *)

Lemma clean_items_numerator (r : Tidy.row) : clean_items r = numerator r.
Proof. unfold clean_items, numerator. now destruct (Tidy.items r). Qed.

Lemma clean_list_size_denominator (r : Tidy.row) : clean_list_size r = denominator r.
Proof. unfold clean_list_size, denominator. now destruct (Tidy.list_size r). Qed.

Lemma sumR_snoc (xs : list R) (x : R) : sumR (xs ++ [x]) = sumR xs + x.
Proof. induction xs as [|y xs IH]; simpl; [lra | rewrite IH; lra]. Qed.

Lemma retained_for_split (k : string) (r : Tidy.row) :
  retained_for k r = negb (pd.isna (Tidy.items r)) && has_key k r.
Proof.
  unfold retained_for, has_key.
  destruct (Tidy.practice_code r); [apply andb_comm | now rewrite andb_false_r].
Qed.

Lemma has_key_dropna (k : string) (df : list Tidy.row) :
  filter (has_key k) (pd.dropna_items df) = retained k df.
Proof.
  unfold pd.dropna_items, retained.
  induction df as [|r df IH]; [reflexivity|].
  cbn [filter]. rewrite retained_for_split.
  destruct (pd.isna (Tidy.items r)); cbn [negb andb filter].
  - exact IH.
  - destruct (has_key k r); now rewrite IH.
Qed.

Lemma groupby_sum_snoc (l : list Tidy.row) (r : Tidy.row) :
  groupby_sum (l ++ [r]) = add_row (groupby_sum l) r.
Proof. unfold groupby_sum. now rewrite fold_left_app. Qed.

Lemma filter_snoc_out (k : string) (l : list Tidy.row) (r : Tidy.row) :
  has_key k r = false -> filter (has_key k) (l ++ [r]) = filter (has_key k) l.
Proof. intros H. rewrite filter_app. simpl. rewrite H. apply app_nil_r. Qed.

Lemma filter_snoc_in (k : string) (l : list Tidy.row) (r : Tidy.row) :
  has_key k r = true ->
  filter (has_key k) (l ++ [r]) = (filter (has_key k) l ++ [r])%list.
Proof. intros H. rewrite filter_app. simpl. now rewrite H. Qed.

Lemma filter_has_key_nil (k : string) (l : list Tidy.row) :
  (forall r, In r l -> Tidy.practice_code r <> Some k) ->
  filter (has_key k) l = [].
Proof.
  intros H. induction l as [|r l IH]; simpl; [reflexivity|].
  assert (Hr : has_key k r = false).
  { unfold has_key. destruct (Tidy.practice_code r) as [k'|] eqn:E; [|reflexivity].
    apply String.eqb_neq. intros ->. apply (H r); [now left | exact E]. }
  rewrite Hr. apply IH. intros r' Hin. apply H. now right.
Qed.

(** The frame after the rows [l]: ascending keys, one entry for each code
    met, holding the sums of that code's rows. *)
Lemma groupby_sum_spec (l : list Tidy.row) :
  ascending (groupby_sum l) /\
  (forall k, In k (keys (groupby_sum l)) <->
             exists r, In r l /\ Tidy.practice_code r = Some k) /\
  (forall t, In t (groupby_sum l) ->
     Grouped.total_items t =
       sumR (map clean_items (filter (has_key (Grouped.practice_code t)) l)) /\
     Grouped.total_list_size t =
       sumR (map clean_list_size (filter (has_key (Grouped.practice_code t)) l))).
Proof.
  induction l as [|r l (Hasc & Hkeys & Hsum)] using rev_ind.
  - split; [constructor|]. split.
    + intros k. simpl. split; [intros [] | intros (r & [] & _)].
    + intros t [].
  - rewrite groupby_sum_snoc. unfold add_row.
    destruct (Tidy.practice_code r) as [k0|] eqn:Ek.
    + split; [now apply upsert_ascending|]. split.
      * intros k. rewrite upsert_keys, Hkeys. split.
        -- intros [-> | (r' & Hin & Hk)].
           ++ exists r. split; [apply in_or_app; right; now left | exact Ek].
           ++ exists r'. split; [apply in_or_app; now left | exact Hk].
        -- intros (r' & Hin & Hk). apply in_app_or in Hin.
           destruct Hin as [Hin | [<- | []]].
           ++ right. eauto.
           ++ left. congruence.
      * intros t Hin.
        assert (Hself : has_key k0 r = true)
          by (unfold has_key; rewrite Ek; apply String.eqb_refl).
        apply upsert_In in Hin; [|exact Hasc].
        destruct Hin as [(Hin & Hne) | [(t0 & Hin & Hc & ->) | (Hfresh & ->)]].
        -- assert (Hout : has_key (Grouped.practice_code t) r = false).
           { unfold has_key. rewrite Ek. apply String.eqb_neq. congruence. }
           rewrite filter_snoc_out by exact Hout. now apply Hsum.
        -- cbn [Grouped.practice_code Grouped.total_items Grouped.total_list_size].
           rewrite filter_snoc_in by exact Hself.
           rewrite !map_app. cbn [map]. rewrite !sumR_snoc.
           destruct (Hsum t0 Hin) as (H1 & H2). rewrite Hc in H1, H2.
           rewrite H1, H2. split; reflexivity.
        -- cbn [Grouped.practice_code Grouped.total_items Grouped.total_list_size].
           rewrite filter_snoc_in by exact Hself.
           rewrite filter_has_key_nil.
           ++ simpl. split; lra.
           ++ intros r' Hin Hk. apply Hfresh. apply Hkeys. eauto.
    + split; [exact Hasc|]. split.
      * intros k. rewrite Hkeys. split.
        -- intros (r' & Hin & Hk). exists r'. split; [apply in_or_app; now left | exact Hk].
        -- intros (r' & Hin & Hk). apply in_app_or in Hin.
           destruct Hin as [Hin | [<- | []]]; [eauto | congruence].
      * intros t Hin.
        assert (Hout : has_key (Grouped.practice_code t) r = false)
          by (unfold has_key; now rewrite Ek).
        rewrite filter_snoc_out by exact Hout. now apply Hsum.
Qed.

Lemma dropna_items_In (df : list Tidy.row) (r : Tidy.row) :
  In r (pd.dropna_items df) <-> In r df /\ Tidy.items r <> NA.
Proof.
  unfold pd.dropna_items. rewrite filter_In.
  destruct (Tidy.items r); simpl; intuition (discriminate || congruence).
Qed.

Lemma aggregate_keys (df : list Tidy.row) (k : string) :
  In k (keys (aggregate df)) <->
  exists r, In r df /\ Tidy.practice_code r = Some k /\ Tidy.items r <> NA.
Proof.
  unfold aggregate.
  destruct (groupby_sum_spec (pd.dropna_items df)) as (_ & Hkeys & _).
  rewrite Hkeys. split.
  - intros (r & Hin & Hk). apply dropna_items_In in Hin. exists r. tauto.
  - intros (r & Hin & Hk & Hna). exists r. split; [|exact Hk].
    apply dropna_items_In. tauto.
Qed.

Lemma aggregate_totals (df : list Tidy.row) (t : Grouped.row) :
  In t (aggregate df) ->
  Grouped.total_items t =
    sumR (map numerator (retained (Grouped.practice_code t) df)) /\
  Grouped.total_list_size t =
    sumR (map denominator (retained (Grouped.practice_code t) df)).
Proof.
  unfold aggregate. intros Hin.
  destruct (groupby_sum_spec (pd.dropna_items df)) as (_ & _ & Hsum).
  destruct (Hsum t Hin) as (H1 & H2).
  rewrite has_key_dropna in H1, H2.
  rewrite H1, H2. split; f_equal; apply map_ext.
  - apply clean_items_numerator.
  - apply clean_list_size_denominator.
Qed.

Lemma aggregate_ascending (df : list Tidy.row) : ascending (aggregate df).
Proof. unfold aggregate. apply groupby_sum_spec. Qed.

(** C5: the result has exactly one row for each practice code that has an
    observation whose items are not missing; its [total_items] is the sum
    of the numerators of that practice's retained observations (a value
    that is not a number counts 0, an observation without items is left
    out altogether) and its [total_list_size] the sum of the denominators
    of the same observations (a missing or non-numeric one counts 0). *)
Theorem aggregation_spec (df : list Tidy.row) :
  NoDup (map Metrics.practice_code (rows (compute_metrics df))) /\
  (forall k,
     In k (map Metrics.practice_code (rows (compute_metrics df))) <->
     exists o, In o df /\ Tidy.practice_code o = Some k /\ Tidy.items o <> NA) /\
  (forall r,
     In r (rows (compute_metrics df)) ->
     Metrics.total_items r =
       sumR (map numerator (retained (Metrics.practice_code r) df)) /\
     Metrics.total_list_size r =
       sumR (map denominator (retained (Metrics.practice_code r) df))).
Proof.
  destruct (rows_keep_every_practice df) as (Hcodes & _).
  rewrite Hcodes. fold (keys (aggregate df)).
  split; [apply ascending_NoDup, aggregate_ascending|].
  split; [apply aggregate_keys|].
  intros r Hr. apply compute_metrics_In in Hr. destruct Hr as (t & Ht & ->).
  destruct (row_of_grouped (overall_mean (aggregate df)) t) as (Hc & Hi & Hl & _).
  rewrite Hc, Hi, Hl. now apply aggregate_totals.
Qed.

(** ** The mean rate *)

Lemma mean_fold_nan (xs : list float) (acc : R * nat) :
  (forall x, In x xs -> x = None) -> fold_left mean_step xs acc = acc.
Proof.
  revert acc. induction xs as [|x xs IH]; intros acc H; simpl; [reflexivity|].
  rewrite (H x) by now left. simpl. apply IH. intros y Hy. apply H. now right.
Qed.

Lemma mean_skipna_all_nan (xs : list float) :
  (forall x, In x xs -> x = None) -> mean_skipna xs = None.
Proof. intros H. unfold mean_skipna. now rewrite mean_fold_nan. Qed.

(** ** A run without any defined rate *)

(** C8: when no row of the result has a defined rate, the run still
    returns the full table: one row for each practice with a retained
    observation and, on every row, NaN for the mean rate, the rate and the
    four limits, and the empty label.  [compute_metrics] is a total
    function, so nothing is raised. *)
Theorem degenerate_run (df : list Tidy.row) :
  df <> [] ->
  (forall r, In r (rows (compute_metrics df)) -> Metrics.rate_per_1000 r = None) ->
  (forall r, In r (rows (compute_metrics df)) ->
     Metrics.mean_rate r = None /\ Metrics.rate_per_1000 r = None /\
     Metrics.ucl95 r = None /\ Metrics.lcl95 r = None /\
     Metrics.ucl998 r = None /\ Metrics.lcl998 r = None /\
     Metrics.outlier r = "") /\
  NoDup (map Metrics.practice_code (rows (compute_metrics df))) /\
  (forall k,
     In k (map Metrics.practice_code (rows (compute_metrics df))) <->
     exists o, In o df /\ Tidy.practice_code o = Some k /\ Tidy.items o <> NA) /\
  (forall c, In c (columns (compute_metrics df)) <-> In c declared_columns).
Proof.
  intros _ Hnan.
  assert (Hmean : overall_mean (aggregate df) = None).
  { unfold overall_mean. apply mean_skipna_all_nan. intros x Hx.
    destruct (rows_keep_every_practice df) as (_ & Hrates).
    rewrite <- Hrates in Hx. apply in_map_iff in Hx.
    destruct Hx as (r & <- & Hr). now apply Hnan. }
  destruct (rows_keep_every_practice df) as (Hcodes & _).
  split; [|split; [|split]].
  - intros r Hr. pose proof (Hnan r Hr) as Hrate.
    pose proof (row_outlier_iff df r Hr) as (_ & _ & Hnone).
    apply compute_metrics_In in Hr. destruct Hr as (t & Ht & ->).
    rewrite Hmean in *.
    destruct (row_of_grouped None t) as (_ & _ & _ & _ & Hm & H95 & H998).
    rewrite limits_nan in H95, H998 by now right.
    pose proof (f_equal fst H95) as U95. pose proof (f_equal snd H95) as L95.
    pose proof (f_equal fst H998) as U998. pose proof (f_equal snd H998) as L998.
    cbn [fst snd] in U95, L95, U998, L998.
    repeat (split; [assumption|]).
    apply Hnone. rewrite Hrate. split; reflexivity.
  - rewrite Hcodes. apply ascending_NoDup, aggregate_ascending.
  - rewrite Hcodes. apply aggregate_keys.
  - apply result_columns.
Qed.

Lemma aggregate_df_no_list_size :
  aggregate df_no_list_size = [Grouped.mk "C" 7 0].
Proof. reflexivity. Qed.

Lemma degenerate_run_witness :
  df_no_list_size <> [] /\
  (forall r, In r (rows (compute_metrics df_no_list_size)) ->
             Metrics.rate_per_1000 r = None) /\
  exists r, rows (compute_metrics df_no_list_size) = [r] /\
            Metrics.practice_code r = "C" /\
            Metrics.mean_rate r = None /\ Metrics.ucl998 r = None /\
            Metrics.outlier r = "".
Proof.
  assert (Hne : df_no_list_size <> []) by (unfold df_no_list_size; discriminate).
  assert (Hnan : forall r, In r (rows (compute_metrics df_no_list_size)) ->
                           Metrics.rate_per_1000 r = None).
  { intros r Hr. apply compute_metrics_In in Hr. destruct Hr as (t & Ht & ->).
    rewrite aggregate_df_no_list_size in Ht. destruct Ht as [<- | []].
    destruct (row_of_grouped (overall_mean (aggregate df_no_list_size))
                (Grouped.mk "C" 7 0)) as (_ & _ & _ & Hrate & _).
    rewrite Hrate. apply rate_of_nonpos. simpl. lra. }
  split; [exact Hne|]. split; [exact Hnan|].
  destruct (degenerate_run df_no_list_size Hne Hnan) as (Hall & _).
  exists (row_for df_no_list_size (Grouped.mk "C" 7 0)).
  assert (Hrows : rows (compute_metrics df_no_list_size) =
                  [row_for df_no_list_size (Grouped.mk "C" 7 0)]).
  { rewrite compute_metrics_rows, aggregate_df_no_list_size. unfold metric_rows, row_for.
    rewrite aggregate_df_no_list_size. reflexivity. }
  split; [exact Hrows|].
  assert (Hin : In (row_for df_no_list_size (Grouped.mk "C" 7 0))
                   (rows (compute_metrics df_no_list_size)))
    by (rewrite Hrows; now left).
  destruct (Hall _ Hin) as (Hm & _ & _ & _ & Hu & _ & Ho).
  split; [|auto].
  apply (row_of_grouped (overall_mean (aggregate df_no_list_size)) (Grouped.mk "C" 7 0)).
Defined.

(** ** The mean of the defined rates *)

Lemma mean_fold_defined (xs : list float) (acc : R * nat) :
  fst (fold_left mean_step xs acc) = fst acc + sumR (defined xs) /\
  snd (fold_left mean_step xs acc) = (snd acc + List.length (defined xs))%nat.
Proof.
  revert acc. induction xs as [|[v|] xs IH]; intros acc; simpl.
  - split; [lra | lia].
  - destruct (IH (fst acc + v, S (snd acc))) as (H1 & H2).
    rewrite H1, H2. simpl. split; [lra | lia].
  - apply IH.
Qed.

Lemma mean_skipna_defined (xs : list float) :
  mean_skipna xs = arithmetic_mean (defined xs).
Proof.
  unfold mean_skipna.
  destruct (mean_fold_defined xs (0, 0%nat)) as (H1 & H2).
  simpl in H1, H2. rewrite H2.
  destruct (defined xs) as [|v vs] eqn:E; simpl List.length; cbn iota.
  - reflexivity.
  - unfold arithmetic_mean. f_equal. rewrite H1. f_equal. lra.
Qed.

Lemma defined_app (xs ys : list float) :
  defined (xs ++ ys) = (defined xs ++ defined ys)%list.
Proof.
  induction xs as [|[v|] xs IH]; simpl; [reflexivity | now rewrite IH | exact IH].
Qed.

(** *** A new practice among the grouped rows *)

Lemma upsert_fresh (k : string) (i l : R) (acc : list Grouped.row) :
  ~ In k (keys acc) ->
  exists l1 l2,
    acc = (l1 ++ l2)%list /\
    (forall t, In t l1 -> String.compare k (Grouped.practice_code t) = Gt) /\
    upsert k i l acc = (l1 ++ Grouped.mk k i l :: l2)%list.
Proof.
  induction acc as [|t rest IH]; intros Hfresh.
  - exists [], []. simpl. split; [reflexivity|]. split; [intros t []|reflexivity].
  - simpl. destruct (String.compare k (Grouped.practice_code t)) eqn:E.
    + exfalso. apply Hfresh. left. symmetry. now apply String.compare_eq_iff.
    + exists [], (t :: rest). simpl.
      split; [reflexivity|]. split; [intros t' []|reflexivity].
    + destruct IH as (l1 & l2 & Hacc & Hgt & Hup).
      { intros Hin. apply Hfresh. now right. }
      exists (t :: l1), l2. simpl. rewrite Hup, <- Hacc.
      split; [reflexivity|]. split; [|reflexivity].
      intros t' [<- | Hin]; [exact E | now apply Hgt].
Qed.

Lemma upsert_at (k : string) (a b i l : R) (l1 l2 : list Grouped.row) :
  (forall t, In t l1 -> String.compare k (Grouped.practice_code t) = Gt) ->
  upsert k i l (l1 ++ Grouped.mk k a b :: l2) =
    (l1 ++ Grouped.mk k (a + i) (b + l) :: l2)%list.
Proof.
  induction l1 as [|t l1 IH]; intros Hgt; simpl.
  - now rewrite string_compare_refl.
  - rewrite (Hgt t) by now left. f_equal. apply IH.
    intros t' Hin. apply Hgt. now right.
Qed.

Lemma fold_add_row_at (k : string) (rs : list Tidy.row) (l1 l2 : list Grouped.row) :
  (forall o, In o rs -> Tidy.practice_code o = Some k) ->
  (forall t, In t l1 -> String.compare k (Grouped.practice_code t) = Gt) ->
  forall a b : R, exists a' b' : R,
    fold_left add_row rs (l1 ++ Grouped.mk k a b :: l2)%list =
      (l1 ++ Grouped.mk k a' b' :: l2)%list.
Proof.
  intros Hk Hgt. induction rs as [|o rs IH]; intros a b; simpl.
  - now exists a, b.
  - unfold add_row at 2. rewrite (Hk o) by now left.
    rewrite upsert_at by exact Hgt.
    apply IH. intros o' Hin. apply Hk. now right.
Qed.

Lemma aggregate_app (df extra : list Tidy.row) :
  aggregate (df ++ extra) = fold_left add_row (pd.dropna_items extra) (aggregate df).
Proof.
  unfold aggregate, groupby_sum, pd.dropna_items.
  now rewrite filter_app, fold_left_app.
Qed.

(** Appending observations of a practice not seen before leaves the grouped
    rows as they are or puts one row for it among them. *)
Lemma aggregate_new_practice (df extra : list Tidy.row) (k : string) :
  (forall o, In o df -> Tidy.practice_code o <> Some k) ->
  (forall o, In o extra -> Tidy.practice_code o = Some k) ->
  aggregate (df ++ extra) = aggregate df \/
  exists l1 l2 a b,
    aggregate df = (l1 ++ l2)%list /\
    aggregate (df ++ extra) = (l1 ++ Grouped.mk k a b :: l2)%list.
Proof.
  intros Hnew Hextra. rewrite aggregate_app.
  assert (Hkept : forall o, In o (pd.dropna_items extra) -> Tidy.practice_code o = Some k).
  { intros o Ho. apply dropna_items_In in Ho. now apply Hextra. }
  destruct (pd.dropna_items extra) as [|o rs]; [now left|].
  right. simpl. unfold add_row at 2. rewrite (Hkept o) by now left.
  destruct (upsert_fresh k (clean_items o) (clean_list_size o) (aggregate df))
    as (l1 & l2 & Hacc & Hgt & Hup).
  { intros Hin. apply aggregate_keys in Hin. destruct Hin as (o' & Hin & Hc & _).
    exact (Hnew o' Hin Hc). }
  rewrite Hup.
  destruct (fold_add_row_at k rs l1 l2) with (a := clean_items o) (b := clean_list_size o)
    as (a' & b' & Hfold).
  { intros o' Hin. apply Hkept. now right. }
  { exact Hgt. }
  exists l1, l2, a', b'. split; [exact Hacc | exact Hfold].
Qed.

Lemma overall_mean_defined (df : list Tidy.row) :
  overall_mean (aggregate df) =
  arithmetic_mean (defined (map Metrics.rate_per_1000 (rows (compute_metrics df)))).
Proof.
  destruct (rows_keep_every_practice df) as (_ & ->).
  unfold overall_mean. apply mean_skipna_defined.
Qed.

Lemma row_mean_rate (df : list Tidy.row) (r : Metrics.row) :
  In r (rows (compute_metrics df)) ->
  Metrics.mean_rate r = overall_mean (aggregate df).
Proof.
  intros Hr. apply compute_metrics_In in Hr. destruct Hr as (t & _ & ->).
  apply (row_of_grouped (overall_mean (aggregate df)) t).
Qed.

(** C4: the mean rate on every row is the arithmetic mean of the defined
    entries of the rate column, NaN when there is none.  Appending
    observations of a practice that is not in the table, whose total list
    size in the new run is 0, leaves it unchanged: every row of the new run
    carries the mean of the defined rates of the old run. *)
Theorem mean_rate_spec (df : list Tidy.row) :
  (forall r, In r (rows (compute_metrics df)) ->
     Metrics.mean_rate r =
       arithmetic_mean (defined (map Metrics.rate_per_1000 (rows (compute_metrics df))))) /\
  (forall (extra : list Tidy.row) (k : string),
     (forall o, In o df -> Tidy.practice_code o <> Some k) ->
     (forall o, In o extra -> Tidy.practice_code o = Some k) ->
     (forall r, In r (rows (compute_metrics (df ++ extra))) ->
                Metrics.practice_code r = k -> Metrics.total_list_size r = 0) ->
     overall_mean (aggregate (df ++ extra)) = overall_mean (aggregate df) /\
     forall r, In r (rows (compute_metrics (df ++ extra))) ->
       Metrics.mean_rate r =
         arithmetic_mean (defined (map Metrics.rate_per_1000 (rows (compute_metrics df))))).
Proof.
  split.
  - intros r Hr. rewrite (row_mean_rate df r Hr). apply overall_mean_defined.
  - intros extra k Hnew Hextra Hzero.
    assert (Hmean : overall_mean (aggregate (df ++ extra)) = overall_mean (aggregate df)).
    { destruct (aggregate_new_practice df extra k Hnew Hextra)
        as [-> | (l1 & l2 & a & b & Hold & Hnewagg)]; [reflexivity|].
      assert (Hb : b = 0).
      { assert (Hin : In (Grouped.mk k a b) (aggregate (df ++ extra)))
          by (rewrite Hnewagg; apply in_or_app; right; now left).
        apply row_for_In in Hin.
        specialize (Hzero _ Hin).
        destruct (row_of_grouped (overall_mean (aggregate (df ++ extra))) (Grouped.mk k a b))
          as (Hc & _ & Hl & _).
        fold (row_for (df ++ extra) (Grouped.mk k a b)) in Hc, Hl.
        rewrite Hl in Hzero. now apply Hzero. }
      unfold overall_mean. rewrite !mean_skipna_defined, Hnewagg, Hold.
      rewrite !map_app, !defined_app. cbn [map defined].
      rewrite (rate_of_nonpos (Grouped.mk k a b)) by (simpl; lra).
      reflexivity. }
    split; [exact Hmean|].
    intros r Hr. rewrite (row_mean_rate _ r Hr), Hmean.
    apply overall_mean_defined.
Qed.

Lemma mean_rate_spec_witness :
  (forall o, In o df_same_rate -> Tidy.practice_code o <> Some "C") /\
  (forall o, In o df_no_list_size -> Tidy.practice_code o = Some "C") /\
  (forall r, In r (rows (compute_metrics (df_same_rate ++ df_no_list_size))) ->
             Metrics.practice_code r = "C" -> Metrics.total_list_size r = 0) /\
  overall_mean (aggregate (df_same_rate ++ df_no_list_size)) = Some 10 /\
  overall_mean (aggregate df_same_rate) = Some 10.
Proof.
  assert (H1 : forall o, In o df_same_rate -> Tidy.practice_code o <> Some "C").
  { intros o [<- | [<- | []]]; discriminate. }
  assert (H2 : forall o, In o df_no_list_size -> Tidy.practice_code o = Some "C").
  { intros o [<- | []]. reflexivity. }
  assert (H3 : forall r, In r (rows (compute_metrics (df_same_rate ++ df_no_list_size))) ->
                         Metrics.practice_code r = "C" -> Metrics.total_list_size r = 0).
  { intros r Hr. apply compute_metrics_In in Hr. destruct Hr as (t & Ht & ->).
    destruct (row_of_grouped
                (overall_mean (aggregate (df_same_rate ++ df_no_list_size))) t)
      as (Hc & _ & Hl & _).
    rewrite Hc, Hl.
    change (aggregate (df_same_rate ++ df_no_list_size))
      with [Grouped.mk "A" 10 1000; Grouped.mk "B" 40 4000; Grouped.mk "C" 7 0] in Ht.
    destruct Ht as [<- | [<- | [<- | []]]]; simpl; intros E;
      [discriminate E | discriminate E | reflexivity]. }
  split; [exact H1|]. split; [exact H2|]. split; [exact H3|].
  destruct (mean_rate_spec df_same_rate) as (_ & Happend).
  destruct (Happend df_no_list_size "C" H1 H2 H3) as (Hmean & _).
  split; [|exact mean_df_same_rate].
  rewrite Hmean. exact mean_df_same_rate.
Defined.

(** ** Width of the control bands *)

Lemma band_width_real (v s z : R) :
  0 < s -> 0 <= v ->
  band_width (fst (limits (Some v) s z)) (snd (limits (Some v) s z)) =
    Some (2 * z * sqrt (v / s)).
Proof.
  intros Hs Hv. rewrite limits_real by assumption.
  unfold band_width, fsub, lift2. simpl. f_equal. lra.
Qed.

Lemma row_band_width (df : list Tidy.row) (r : Metrics.row) (m : R) :
  In r (rows (compute_metrics df)) ->
  Metrics.mean_rate r = Some m -> 0 <= m -> 0 < Metrics.total_list_size r ->
  band_width (Metrics.ucl95 r) (Metrics.lcl95 r) =
    Some (2 * 1.96 * sqrt (m / (Metrics.total_list_size r / 1000))) /\
  band_width (Metrics.ucl998 r) (Metrics.lcl998 r) =
    Some (2 * 3.09 * sqrt (m / (Metrics.total_list_size r / 1000))).
Proof.
  intros Hr Hm Hpos Hl.
  assert (Hs : 0 < Metrics.total_list_size r / 1000) by lra.
  pose proof (band_width_real m _ 1.96 Hs Hpos) as W95.
  pose proof (band_width_real m _ 3.09 Hs Hpos) as W998.
  apply compute_metrics_In in Hr. destruct Hr as (t & _ & Er).
  destruct (row_of_grouped (overall_mean (aggregate df)) t)
    as (_ & _ & El & _ & Em & H95 & H998).
  rewrite <- Er in El, Em, H95, H998.
  rewrite <- El, <- Em, Hm in H95, H998.
  rewrite <- H95 in W95. rewrite <- H998 in W998.
  split; [exact W95 | exact W998].
Qed.

Lemma sqrt_quotient_decreasing (m s1 s2 : R) :
  0 < m -> 0 < s1 -> s1 < s2 -> sqrt (m / s2) < sqrt (m / s1).
Proof.
  intros Hm H1 H2. apply sqrt_lt_1_alt.
  assert (H2' : 0 < s2) by lra.
  pose proof (Rinv_0_lt_compat s2 H2') as Hi2.
  assert (Hinv : / s2 < / s1) by (apply Rinv_lt_contravar; nra).
  unfold Rdiv. split; nra.
Qed.

(** C7, as the code has it: of two rows of one run with the same ratio of
    total items to total list size, positive total list sizes and a
    positive mean rate, the one with the larger total list size has the
    strictly narrower band, at 95% and at 99.8%. *)
Theorem band_narrows_with_list_size
    (df : list Tidy.row) (r1 r2 : Metrics.row) (m : R) :
  In r1 (rows (compute_metrics df)) ->
  In r2 (rows (compute_metrics df)) ->
  Metrics.mean_rate r1 = Some m -> 0 < m ->
  0 < Metrics.total_list_size r1 ->
  Metrics.total_list_size r1 < Metrics.total_list_size r2 ->
  Metrics.total_items r1 / Metrics.total_list_size r1 =
    Metrics.total_items r2 / Metrics.total_list_size r2 ->
  (band_width (Metrics.ucl95 r2) (Metrics.lcl95 r2)
     <? band_width (Metrics.ucl95 r1) (Metrics.lcl95 r1))%fl = true /\
  (band_width (Metrics.ucl998 r2) (Metrics.lcl998 r2)
     <? band_width (Metrics.ucl998 r1) (Metrics.lcl998 r1))%fl = true.
Proof.
  intros H1 H2 Hm Hpos Hl1 Hlt _.
  assert (Hm2 : Metrics.mean_rate r2 = Some m).
  { rewrite (row_mean_rate df r2 H2), <- (row_mean_rate df r1 H1). exact Hm. }
  destruct (row_band_width df r1 m H1 Hm ltac:(lra) Hl1) as (A95 & A998).
  destruct (row_band_width df r2 m H2 Hm2 ltac:(lra) ltac:(lra)) as (B95 & B998).
  rewrite A95, A998, B95, B998. simpl.
  pose proof (sqrt_quotient_decreasing m
                (Metrics.total_list_size r1 / 1000)
                (Metrics.total_list_size r2 / 1000) Hpos ltac:(lra) ltac:(lra)) as Hq.
  split; apply Rltb_true; lra.
Qed.

Lemma row_for_fields (df : list Tidy.row) (t : Grouped.row) :
  Metrics.practice_code (row_for df t) = Grouped.practice_code t /\
  Metrics.total_items (row_for df t) = Grouped.total_items t /\
  Metrics.total_list_size (row_for df t) = Grouped.total_list_size t /\
  Metrics.mean_rate (row_for df t) = overall_mean (aggregate df).
Proof.
  destruct (row_of_grouped (overall_mean (aggregate df)) t) as (H1 & H2 & H3 & _ & H5 & _).
  unfold row_for. auto.
Qed.

Lemma band_narrows_with_list_size_witness :
  exists a b,
    In a (rows (compute_metrics df_same_rate)) /\
    In b (rows (compute_metrics df_same_rate)) /\
    Metrics.practice_code a = "A" /\ Metrics.practice_code b = "B" /\
    Metrics.total_list_size a = 1000 /\ Metrics.total_list_size b = 4000 /\
    (band_width (Metrics.ucl95 b) (Metrics.lcl95 b)
       <? band_width (Metrics.ucl95 a) (Metrics.lcl95 a))%fl = true /\
    (band_width (Metrics.ucl998 b) (Metrics.lcl998 b)
       <? band_width (Metrics.ucl998 a) (Metrics.lcl998 a))%fl = true.
Proof.
  set (a := row_for df_same_rate (Grouped.mk "A" 10 1000)).
  set (b := row_for df_same_rate (Grouped.mk "B" 40 4000)).
  assert (Ha : In a (rows (compute_metrics df_same_rate))).
  { apply row_for_In. rewrite aggregate_df_same_rate. simpl; auto. }
  assert (Hb : In b (rows (compute_metrics df_same_rate))).
  { apply row_for_In. rewrite aggregate_df_same_rate. simpl; auto. }
  destruct (row_for_fields df_same_rate (Grouped.mk "A" 10 1000)) as (Ac & Ai & Al & Am).
  destruct (row_for_fields df_same_rate (Grouped.mk "B" 40 4000)) as (Bc & Bi & Bl & Bm).
  fold a in Ac, Ai, Al, Am. fold b in Bc, Bi, Bl, Bm.
  cbn [Grouped.practice_code Grouped.total_items Grouped.total_list_size]
    in Ac, Ai, Al, Bc, Bi, Bl.
  rewrite mean_df_same_rate in Am.
  exists a, b.
  repeat (split; [assumption|]).
  apply (band_narrows_with_list_size df_same_rate a b 10 Ha Hb Am).
  - lra.
  - rewrite Al. lra.
  - rewrite Al, Bl. lra.
  - rewrite Ai, Al, Bi, Bl. lra.
Defined.

Lemma aggregate_df_no_items :
  aggregate df_no_items = [Grouped.mk "A" 0 1000; Grouped.mk "B" 0 2000].
Proof. reflexivity. Qed.

Lemma mean_df_no_items : overall_mean (aggregate df_no_items) = Some 0.
Proof.
  rewrite aggregate_df_no_items. run_model. f_equal. simpl INR. lra.
Qed.

(** C7 as stated fails: two practices without items, for 1000 and 2000
    patients, have the same ratio 0 and different list sizes; the mean rate
    is 0 and both bands have width 0, so the larger practice's band is not
    strictly narrower. *)
Lemma equal_bands_at_zero_mean :
  exists a b,
    In a (rows (compute_metrics df_no_items)) /\
    In b (rows (compute_metrics df_no_items)) /\
    Metrics.total_items a / Metrics.total_list_size a =
      Metrics.total_items b / Metrics.total_list_size b /\
    Metrics.total_list_size a = 1000 /\ Metrics.total_list_size b = 2000 /\
    band_width (Metrics.ucl95 a) (Metrics.lcl95 a) = Some 0 /\
    band_width (Metrics.ucl95 b) (Metrics.lcl95 b) = Some 0 /\
    band_width (Metrics.ucl998 a) (Metrics.lcl998 a) = Some 0 /\
    band_width (Metrics.ucl998 b) (Metrics.lcl998 b) = Some 0 /\
    (band_width (Metrics.ucl95 b) (Metrics.lcl95 b)
       <? band_width (Metrics.ucl95 a) (Metrics.lcl95 a))%fl = false /\
    (band_width (Metrics.ucl998 b) (Metrics.lcl998 b)
       <? band_width (Metrics.ucl998 a) (Metrics.lcl998 a))%fl = false.
Proof.
  set (a := row_for df_no_items (Grouped.mk "A" 0 1000)).
  set (b := row_for df_no_items (Grouped.mk "B" 0 2000)).
  assert (Ha : In a (rows (compute_metrics df_no_items))).
  { apply row_for_In. rewrite aggregate_df_no_items. simpl; auto. }
  assert (Hb : In b (rows (compute_metrics df_no_items))).
  { apply row_for_In. rewrite aggregate_df_no_items. simpl; auto. }
  destruct (row_for_fields df_no_items (Grouped.mk "A" 0 1000)) as (_ & Ai & Al & Am).
  destruct (row_for_fields df_no_items (Grouped.mk "B" 0 2000)) as (_ & Bi & Bl & Bm).
  fold a in Ai, Al, Am. fold b in Bi, Bl, Bm.
  cbn [Grouped.total_items Grouped.total_list_size] in Ai, Al, Bi, Bl.
  rewrite mean_df_no_items in Am, Bm.
  assert (Hz : forall c s, 0 < s -> Some (2 * c * sqrt (0 / s)) = Some 0).
  { intros c s Hs. f_equal. replace (0 / s) with 0 by (unfold Rdiv; ring).
    rewrite sqrt_0. ring. }
  destruct (row_band_width df_no_items a 0 Ha Am ltac:(lra) ltac:(lra)) as (A95 & A998).
  destruct (row_band_width df_no_items b 0 Hb Bm ltac:(lra) ltac:(lra)) as (B95 & B998).
  rewrite Hz in A95, A998, B95, B998 by lra.
  exists a, b.
  split; [exact Ha|]. split; [exact Hb|].
  split; [rewrite Ai, Al, Bi, Bl; lra|].
  split; [exact Al|]. split; [exact Bl|].
  split; [exact A95|]. split; [exact B95|].
  split; [exact A998|]. split; [exact B998|].
  rewrite A95, B95, A998, B998. simpl.
  unfold Rltb. destruct (Rlt_dec 0 0); [lra|]. split; reflexivity.
Qed.

(** * Further properties of [compute_metrics] *)

(** ** Order and number of the rows *)

Lemma upsert_length (k : string) (i l : R) (acc : list Grouped.row) :
  (List.length (upsert k i l acc) <= S (List.length acc))%nat.
Proof.
  induction acc as [|t rest IH]; simpl; [lia|].
  destruct (String.compare k (Grouped.practice_code t)); simpl; lia.
Qed.

Lemma fold_add_row_length (rs : list Tidy.row) (acc : list Grouped.row) :
  (List.length (fold_left add_row rs acc) <= List.length acc + List.length rs)%nat.
Proof.
  revert acc. induction rs as [|o rs IH]; intros acc; simpl; [lia|].
  specialize (IH (add_row acc o)).
  assert (List.length (add_row acc o) <= S (List.length acc))%nat.
  { unfold add_row. destruct (Tidy.practice_code o); [apply upsert_length | lia]. }
  lia.
Qed.

Lemma rows_code_order (m : float) (grouped : list Grouped.row) :
  ascending grouped ->
  StronglySorted code_lt (map (fun t => with_outlier (with_limits m t)) grouped).
Proof.
  unfold ascending.
  induction grouped as [|t rest IH]; intros H; simpl; [constructor|].
  apply StronglySorted_inv in H. destruct H as (Hrest & Hall).
  constructor; [now apply IH|].
  rewrite Forall_forall in *. intros r Hr. apply in_map_iff in Hr.
  destruct Hr as (t' & <- & Hin).
  unfold code_lt.
  destruct (row_of_grouped m t) as (-> & _).
  destruct (row_of_grouped m t') as (-> & _).
  exact (Hall t' Hin).
Qed.

(** X1: the rows of the result are in strictly ascending order of practice
    code, whatever the order of the input, and there are at most as many
    rows as observations. *)
Theorem rows_ascending (df : list Tidy.row) :
  StronglySorted code_lt (rows (compute_metrics df)) /\
  (List.length (rows (compute_metrics df)) <= List.length df)%nat.
Proof.
  rewrite compute_metrics_rows. unfold metric_rows. split.
  - apply rows_code_order, aggregate_ascending.
  - rewrite length_map. unfold aggregate, groupby_sum.
    pose proof (fold_add_row_length (pd.dropna_items df) []) as H.
    pose proof (filter_length_le (fun r => negb (pd.isna (Tidy.items r))) df) as H'.
    unfold pd.dropna_items in *. simpl in H. lia.
Qed.

(** Two strictly ascending lists with the same members are the same list. *)
Lemma ascending_codes_unique (l1 l2 : list string) :
  StronglySorted (fun a b => String.compare a b = Lt) l1 ->
  StronglySorted (fun a b => String.compare a b = Lt) l2 ->
  (forall k, In k l1 <-> In k l2) ->
  l1 = l2.
Proof.
  revert l2. induction l1 as [|a l1 IH]; intros [|b l2] H1 H2 Hmem.
  - reflexivity.
  - exfalso. apply (Hmem b). now left.
  - exfalso. apply (Hmem a). now left.
  - apply StronglySorted_inv in H1. destruct H1 as (H1 & A1).
    apply StronglySorted_inv in H2. destruct H2 as (H2 & A2).
    rewrite Forall_forall in A1, A2.
    assert (Hab : a = b).
    { destruct (proj1 (Hmem a) (or_introl eq_refl)) as [Hb | Hb]; [now symmetry|].
      destruct (proj2 (Hmem b) (or_introl eq_refl)) as [Ha | Ha]; [assumption|].
      exfalso. pose proof (string_compare_lt_trans _ _ _ (A1 b Ha) (A2 a Hb)) as Hc.
      rewrite string_compare_refl in Hc. discriminate. }
    subst b. f_equal. apply IH; try assumption.
    intros k. split; intros Hk.
    + destruct (proj1 (Hmem k) (or_intror Hk)) as [Hb | Hb]; [|assumption].
      exfalso. subst k. pose proof (A1 a Hk) as Hc.
      rewrite string_compare_refl in Hc. discriminate.
    + destruct (proj2 (Hmem k) (or_intror Hk)) as [Hb | Hb]; [|assumption].
      exfalso. subst k. pose proof (A2 a Hk) as Hc.
      rewrite string_compare_refl in Hc. discriminate.
Qed.

Lemma keys_ascending (acc : list Grouped.row) :
  ascending acc -> StronglySorted (fun a b => String.compare a b = Lt) (keys acc).
Proof.
  unfold ascending, keys.
  induction acc as [|t rest IH]; intros H; simpl; [constructor|].
  apply StronglySorted_inv in H. destruct H as (Hrest & Hall).
  constructor; [now apply IH|].
  rewrite Forall_forall in *. intros k Hk. apply in_map_iff in Hk.
  destruct Hk as (t' & <- & Hin). exact (Hall t' Hin).
Qed.

(** X2: the practice code column of the result does not depend on the
    order of the observations: two tables that are permutations of each
    other give the same codes in the same order. *)
Theorem codes_independent_of_row_order (df df' : list Tidy.row) :
  Permutation df df' ->
  map Metrics.practice_code (rows (compute_metrics df)) =
  map Metrics.practice_code (rows (compute_metrics df')).
Proof.
  intros Hperm.
  destruct (rows_keep_every_practice df) as (-> & _).
  destruct (rows_keep_every_practice df') as (-> & _).
  apply ascending_codes_unique.
  - apply keys_ascending, aggregate_ascending.
  - apply keys_ascending, aggregate_ascending.
  - intros k. fold (keys (aggregate df)) (keys (aggregate df')).
    rewrite !aggregate_keys. split; intros (o & Hin & H).
    + exists o. split; [eapply Permutation_in; eassumption | exact H].
    + exists o. split; [|exact H].
      eapply Permutation_in; [apply Permutation_sym|]; eassumption.
Qed.

Lemma codes_independent_of_row_order_witness :
  Permutation df_example (rev df_example) /\
  map Metrics.practice_code (rows (compute_metrics (rev df_example))) = ["A"; "B"].
Proof.
  assert (H : Permutation df_example (rev df_example)) by apply Permutation_rev.
  split; [exact H|].
  rewrite <- (codes_independent_of_row_order df_example (rev df_example) H).
  destruct (rows_keep_every_practice df_example) as (-> & _).
  rewrite aggregate_df_example. reflexivity.
Defined.

(** ** Shape of the control limits *)

(** Either both pairs of limits are NaN, or both are the mean plus and minus
    [z] times one non-negative standard error. *)
Lemma limits_cases (m : float) (s : R) :
  ((s <= 0 \/ m = None \/ exists v, m = Some v /\ v < 0) /\
   forall z, limits m s z = (None, None)) \/
  (exists v, m = Some v /\ 0 < s /\ 0 <= v /\
     forall z, limits m s z =
               (Some (v + z * sqrt (v / s)), Some (v - z * sqrt (v / s)))).
Proof.
  destruct (Rle_dec s 0) as [Hs | Hs].
  { left. split; [now left|]. intros z. apply limits_nan. now left. }
  destruct m as [v|].
  2:{ left. split; [right; now left|]. intros z. apply limits_nan. now right. }
  destruct (Rlt_dec v 0) as [Hv | Hv].
  - left. split; [right; right; now exists v|].
    intros z. apply limits_negative_mean; lra.
  - right. exists v. repeat split; try lra.
    intros z. apply limits_real; lra.
Qed.

Lemma row_limits_cases (df : list Tidy.row) (r : Metrics.row) :
  In r (rows (compute_metrics df)) ->
  ((Metrics.total_list_size r <= 0 \/ Metrics.mean_rate r = None \/
    exists v, Metrics.mean_rate r = Some v /\ v < 0) /\
   Metrics.ucl95 r = None /\ Metrics.lcl95 r = None /\
   Metrics.ucl998 r = None /\ Metrics.lcl998 r = None) \/
  (exists v q, Metrics.mean_rate r = Some v /\ 0 < Metrics.total_list_size r /\
     0 <= v /\ 0 <= q /\
     Metrics.ucl95 r = Some (v + 1.96 * q) /\ Metrics.lcl95 r = Some (v - 1.96 * q) /\
     Metrics.ucl998 r = Some (v + 3.09 * q) /\ Metrics.lcl998 r = Some (v - 3.09 * q)).
Proof.
  intros Hr. apply compute_metrics_In in Hr. destruct Hr as (t & _ & ->).
  destruct (row_of_grouped (overall_mean (aggregate df)) t)
    as (_ & _ & Hl & _ & Hm & H95 & H998).
  rewrite Hl, Hm.
  destruct (limits_cases (overall_mean (aggregate df)) (Grouped.total_list_size t / 1000))
    as [(Hwhy & Hnan) | (v & Hv & Hs & Hpos & Hlim)].
  - left. rewrite Hnan in H95, H998.
    pose proof (f_equal fst H95). pose proof (f_equal snd H95).
    pose proof (f_equal fst H998). pose proof (f_equal snd H998).
    cbn [fst snd] in *. repeat split; try assumption.
    destruct Hwhy as [Hs | Hrest]; [left; lra | right; exact Hrest].
  - right. exists v, (sqrt (v / (Grouped.total_list_size t / 1000))).
    rewrite Hlim in H95, H998.
    pose proof (f_equal fst H95). pose proof (f_equal snd H95).
    pose proof (f_equal fst H998). pose proof (f_equal snd H998).
    cbn [fst snd] in *.
    repeat split; try assumption; try lra. apply sqrt_pos.
Qed.

(** X3: on every row the four limits are all numbers or all NaN, and when
    they are numbers the 99.8% band contains the 95% band, which contains
    the mean rate: lcl998 <= lcl95 <= mean_rate <= ucl95 <= ucl998. *)
Theorem bands_nested (df : list Tidy.row) (r : Metrics.row) :
  In r (rows (compute_metrics df)) ->
  (Metrics.ucl95 r = None /\ Metrics.lcl95 r = None /\
   Metrics.ucl998 r = None /\ Metrics.lcl998 r = None) \/
  (exists m u95 l95 u998 l998,
     Metrics.mean_rate r = Some m /\
     Metrics.ucl95 r = Some u95 /\ Metrics.lcl95 r = Some l95 /\
     Metrics.ucl998 r = Some u998 /\ Metrics.lcl998 r = Some l998 /\
     l998 <= l95 /\ l95 <= m /\ m <= u95 /\ u95 <= u998).
Proof.
  intros Hr.
  destruct (row_limits_cases df r Hr)
    as [(_ & Hnan) | (v & q & Hm & _ & _ & Hq & H1 & H2 & H3 & H4)].
  - left. exact Hnan.
  - right. exists v, (v + 1.96 * q), (v - 1.96 * q), (v + 3.09 * q), (v - 3.09 * q).
    repeat split; try assumption; lra.
Qed.

Lemma bands_nested_witness :
  exists r,
    In r (rows (compute_metrics df_same_rate)) /\
    Metrics.practice_code r = "A" /\
    exists m u95 l95 u998 l998,
      Metrics.mean_rate r = Some m /\
      Metrics.ucl95 r = Some u95 /\ Metrics.lcl95 r = Some l95 /\
      Metrics.ucl998 r = Some u998 /\ Metrics.lcl998 r = Some l998 /\
      l998 <= l95 /\ l95 <= m /\ m <= u95 /\ u95 <= u998.
Proof.
  set (t := Grouped.mk "A" 10 1000).
  assert (Hin : In (row_for df_same_rate t) (rows (compute_metrics df_same_rate))).
  { apply row_for_In. rewrite aggregate_df_same_rate. now left. }
  exists (row_for df_same_rate t). split; [exact Hin|].
  split; [apply (row_for_fields df_same_rate t)|].
  destruct (bands_nested df_same_rate _ Hin) as [(Hu & _) | Hok]; [|exact Hok].
  exfalso.
  destruct (row_limits_cases df_same_rate _ Hin)
    as [(Hwhy & _) | (v & q & _ & _ & _ & _ & H1 & _)]; [|congruence].
  destruct (row_for_fields df_same_rate t) as (_ & _ & Hl & Hm).
  rewrite Hl, Hm, mean_df_same_rate in Hwhy. cbn [Grouped.total_list_size t] in Hwhy.
  destruct Hwhy as [H | [H | (v & H & Hv)]]; [unfold t in H; simpl in H; lra | discriminate |].
  inversion H; subst. lra.
Defined.

(** X4: the limits of a row are numbers exactly when its total list size
    is positive and the mean rate is a number that is not negative; a
    negative mean rate makes [np.sqrt] give NaN, and with it all limits. *)
Theorem limits_defined_iff (df : list Tidy.row) (r : Metrics.row) :
  In r (rows (compute_metrics df)) ->
  (Metrics.ucl998 r <> None <->
     0 < Metrics.total_list_size r /\
     exists v, Metrics.mean_rate r = Some v /\ 0 <= v) /\
  (Metrics.ucl998 r <> None <-> Metrics.lcl998 r <> None) /\
  (Metrics.ucl998 r <> None <-> Metrics.ucl95 r <> None) /\
  (Metrics.ucl998 r <> None <-> Metrics.lcl95 r <> None).
Proof.
  intros Hr.
  destruct (row_limits_cases df r Hr)
    as [(Hwhy & H1 & H2 & H3 & H4) | (v & q & Hm & Hs & Hv & _ & H1 & H2 & H3 & H4)].
  - rewrite H1, H2, H3, H4.
    split; [|split; [|split]]; try tauto.
    split; [intros H; now contradiction H|].
    intros (Hs & v & Hm & Hv). exfalso.
    destruct Hwhy as [H | [H | (v' & H & Hv')]]; [lra | congruence |].
    rewrite Hm in H. inversion H; subst. lra.
  - rewrite H1, H2, H3, H4.
    split; [|split; [|split]]; try (split; intros _; discriminate).
    split; [intros _|intros _; discriminate].
    split; [exact Hs | exists v; auto].
Qed.

Lemma limits_defined_iff_witness :
  exists r,
    In r (rows (compute_metrics df_negative)) /\
    (Metrics.ucl998 r <> None <->
       0 < Metrics.total_list_size r /\
       exists v, Metrics.mean_rate r = Some v /\ 0 <= v) /\
    Metrics.ucl998 r = None.
Proof.
  exists (Metrics.mk "A" 5 (-1000) None None None None None None "").
  assert (Hin : In (Metrics.mk "A" 5 (-1000) None None None None None None "")
                   (rows (compute_metrics df_negative)))
    by (rewrite rows_df_negative; now left).
  split; [exact Hin|]. split; [|reflexivity].
  apply (limits_defined_iff df_negative _ Hin).
Defined.

(** ** Non-negative data *)

Lemma sumR_nonneg (xs : list R) :
  (forall x, In x xs -> 0 <= x) -> 0 <= sumR xs.
Proof.
  induction xs as [|x xs IH]; intros H; simpl; [lra|].
  assert (0 <= x) by (apply H; now left).
  assert (0 <= sumR xs) by (apply IH; intros y Hy; apply H; now right).
  lra.
Qed.

Lemma defined_In (xs : list float) (v : R) :
  In v (defined xs) <-> In (Some v) xs.
Proof.
  induction xs as [|[w|] xs IH]; simpl.
  - tauto.
  - rewrite IH. split; intros [H | H]; auto; left; congruence.
  - rewrite IH. split; [auto | intros [H | H]; [discriminate | exact H]].
Qed.

Lemma arithmetic_mean_nonneg (vs : list R) (m : R) :
  (forall v, In v vs -> 0 <= v) -> arithmetic_mean vs = Some m -> 0 <= m.
Proof.
  intros Hvs. destruct vs as [|v vs]; simpl; [discriminate|].
  intros H. inversion H; subst m. clear H.
  assert (Hsum : 0 <= sumR (v :: vs)) by now apply sumR_nonneg.
  simpl in Hsum.
  assert (Hn : 0 < INR (S (List.length vs))) by (apply lt_0_INR; lia).
  apply Rmult_le_pos; [exact Hsum | left; now apply Rinv_0_lt_compat].
Qed.

Lemma aggregate_nonneg (df : list Tidy.row) (t : Grouped.row) :
  (forall o, In o df -> 0 <= numerator o /\ 0 <= denominator o) ->
  In t (aggregate df) ->
  0 <= Grouped.total_items t /\ 0 <= Grouped.total_list_size t.
Proof.
  intros Hdf Ht. destruct (aggregate_totals df t Ht) as (-> & ->).
  split; apply sumR_nonneg; intros x Hx; apply in_map_iff in Hx;
    destruct Hx as (o & <- & Ho); unfold retained in Ho;
    apply filter_In in Ho; destruct Ho as (Ho & _); now apply Hdf.
Qed.

Lemma rate_of_nonneg (t : Grouped.row) (x : R) :
  0 <= Grouped.total_items t -> rate_of t = Some x -> 0 <= x.
Proof.
  intros Hi Hx.
  destruct (Rle_dec (Grouped.total_list_size t) 0) as [Hl | Hl].
  - rewrite rate_of_nonpos in Hx by exact Hl. discriminate.
  - rewrite rate_of_pos in Hx by lra. inversion Hx; subst x.
    assert (0 < / Grouped.total_list_size t) by (apply Rinv_0_lt_compat; lra).
    unfold Rdiv. nra.
Qed.

(** X5: when no observation has a negative number of items or a negative
    list size, every row has non-negative totals, its rate is NaN exactly
    when its total list size is 0 and is otherwise not negative, the mean
    rate is not negative, and its limits are NaN exactly when its total
    list size is 0 or no practice has a defined rate. *)
Theorem nonnegative_data (df : list Tidy.row) (r : Metrics.row) :
  (forall o, In o df -> 0 <= numerator o /\ 0 <= denominator o) ->
  In r (rows (compute_metrics df)) ->
  0 <= Metrics.total_items r /\ 0 <= Metrics.total_list_size r /\
  (Metrics.rate_per_1000 r = None <-> Metrics.total_list_size r = 0) /\
  (forall x, Metrics.rate_per_1000 r = Some x -> 0 <= x) /\
  (forall m, Metrics.mean_rate r = Some m -> 0 <= m) /\
  (Metrics.ucl998 r = None <->
     Metrics.total_list_size r = 0 \/ Metrics.mean_rate r = None).
Proof.
  intros Hdf Hr.
  assert (Hmean : forall m, Metrics.mean_rate r = Some m -> 0 <= m).
  { intros m Hm. rewrite (row_mean_rate df r Hr), overall_mean_defined in Hm.
    apply (arithmetic_mean_nonneg
             (defined (map Metrics.rate_per_1000 (rows (compute_metrics df)))) m);
      [|exact Hm].
    intros v Hv. apply defined_In, in_map_iff in Hv.
    destruct Hv as (r' & Hrate & Hr').
    apply compute_metrics_In in Hr'. destruct Hr' as (t' & Ht' & ->).
    destruct (row_of_grouped (overall_mean (aggregate df)) t') as (_ & _ & _ & Hrt & _).
    rewrite Hrt in Hrate.
    apply (rate_of_nonneg t'); [|exact Hrate].
    now apply (aggregate_nonneg df t' Hdf). }
  destruct (limits_defined_iff df r Hr) as (Hlim & _).
  pose proof Hr as Hr0.
  apply compute_metrics_In in Hr. destruct Hr as (t & Ht & Er).
  destruct (aggregate_nonneg df t Hdf Ht) as (Hi & Hl).
  destruct (row_of_grouped (overall_mean (aggregate df)) t)
    as (_ & Ei & El & Erate & _).
  rewrite <- Er in Ei, El, Erate. rewrite Ei, El, Erate.
  split; [exact Hi|]. split; [exact Hl|]. split; [|split; [|split]].
  - rewrite rate_of_nan_iff. split; intros H; lra.
  - intros x. now apply rate_of_nonneg.
  - exact Hmean.
  - rewrite El in Hlim. split.
    + intros Hnan.
      destruct (Req_dec_T (Grouped.total_list_size t) 0) as [Hz | Hz]; [now left|].
      right. destruct (Metrics.mean_rate r) as [m|] eqn:Em; [|reflexivity].
      exfalso. apply (proj2 Hlim); [|exact Hnan].
      split; [lra|]. exists m. split; [reflexivity | now apply Hmean].
    + intros Hwhy.
      destruct (Metrics.ucl998 r) as [u|] eqn:Eu; [|reflexivity].
      exfalso. destruct (proj1 Hlim) as (Hs & v & Hv & _); [discriminate|].
      destruct Hwhy as [H | H]; [lra | congruence].
Qed.

Lemma nonnegative_data_witness :
  (forall o, In o df_no_list_size -> 0 <= numerator o /\ 0 <= denominator o) /\
  exists r,
    rows (compute_metrics df_no_list_size) = [r] /\
    Metrics.total_list_size r = 0 /\
    (Metrics.rate_per_1000 r = None <-> Metrics.total_list_size r = 0).
Proof.
  assert (Hdf : forall o, In o df_no_list_size -> 0 <= numerator o /\ 0 <= denominator o).
  { intros o [<- | []]. unfold numerator, denominator.
    cbn [Tidy.items Tidy.list_size]. split; lra. }
  split; [exact Hdf|].
  set (r := row_for df_no_list_size (Grouped.mk "C" 7 0)).
  assert (Hrows : rows (compute_metrics df_no_list_size) = [r]).
  { rewrite compute_metrics_rows, aggregate_df_no_list_size. unfold metric_rows, r, row_for.
    rewrite aggregate_df_no_list_size. reflexivity. }
  exists r. split; [exact Hrows|].
  split; [apply (row_for_fields df_no_list_size (Grouped.mk "C" 7 0))|].
  apply (nonnegative_data df_no_list_size r Hdf).
  rewrite Hrows. now left.
Defined.

(** ** The mean rate lies among the rates *)

Lemma sum_above_least (vs : list R) :
  vs <> [] -> exists x, In x vs /\ x * INR (List.length vs) <= sumR vs.
Proof.
  induction vs as [|v vs IH]; intros Hne; [congruence|].
  destruct vs as [|w vs].
  - exists v. simpl. split; [now left | lra].
  - destruct IH as (x & Hx & Hle); [discriminate|].
    set (n := List.length (w :: vs)) in *.
    assert (Hn : 0 <= INR n) by apply pos_INR.
    change (List.length (v :: w :: vs)) with (S n).
    change (sumR (v :: w :: vs)) with (v + sumR (w :: vs)).
    rewrite S_INR.
    destruct (Rle_dec v x) as [Hvx | Hvx].
    + exists v. split; [now left | nra].
    + exists x. split; [now right | nra].
Qed.

Lemma sum_below_greatest (vs : list R) :
  vs <> [] -> exists y, In y vs /\ sumR vs <= y * INR (List.length vs).
Proof.
  induction vs as [|v vs IH]; intros Hne; [congruence|].
  destruct vs as [|w vs].
  - exists v. simpl. split; [now left | lra].
  - destruct IH as (y & Hy & Hle); [discriminate|].
    set (n := List.length (w :: vs)) in *.
    assert (Hn : 0 <= INR n) by apply pos_INR.
    change (List.length (v :: w :: vs)) with (S n).
    change (sumR (v :: w :: vs)) with (v + sumR (w :: vs)).
    rewrite S_INR.
    destruct (Rle_dec y v) as [Hyv | Hyv].
    + exists v. split; [now left | nra].
    + exists y. split; [now right | nra].
Qed.

Lemma arithmetic_mean_between (vs : list R) (m : R) :
  arithmetic_mean vs = Some m ->
  (exists x, In x vs /\ x <= m) /\ (exists y, In y vs /\ m <= y).
Proof.
  intros Hm. destruct vs as [|v vs]; [discriminate|].
  assert (Hne : v :: vs <> []) by discriminate.
  set (n := INR (List.length (v :: vs))).
  assert (Em : sumR (v :: vs) / n = m)
    by (unfold arithmetic_mean in Hm; injection Hm; auto).
  assert (Hn : 0 < n) by (apply lt_0_INR; simpl; lia).
  assert (Hmn : m * n = sumR (v :: vs)) by (rewrite <- Em; field; lra).
  split.
  - destruct (sum_above_least (v :: vs) Hne) as (x & Hx & Hle).
    exists x. split; [exact Hx|].
    apply (Rmult_le_reg_r n); [exact Hn|]. rewrite Hmn. exact Hle.
  - destruct (sum_below_greatest (v :: vs) Hne) as (y & Hy & Hle).
    exists y. split; [exact Hy|].
    apply (Rmult_le_reg_r n); [exact Hn|]. rewrite Hmn. exact Hle.
Qed.

(** Some defined rate is at most the mean rate, and some is at least it. *)
Lemma rates_around_mean (df : list Tidy.row) (m : R) :
  overall_mean (aggregate df) = Some m ->
  (exists r x, In r (rows (compute_metrics df)) /\
               Metrics.rate_per_1000 r = Some x /\ x <= m) /\
  (exists r y, In r (rows (compute_metrics df)) /\
               Metrics.rate_per_1000 r = Some y /\ m <= y).
Proof.
  intros Hm. rewrite overall_mean_defined in Hm.
  destruct (arithmetic_mean_between _ m Hm) as ((x & Hx & Hxm) & (y & Hy & Hmy)).
  apply defined_In, in_map_iff in Hx. destruct Hx as (rx & Hrx & Hinx).
  apply defined_In, in_map_iff in Hy. destruct Hy as (ry & Hry & Hiny).
  split; [exists rx, x | exists ry, y]; auto.
Qed.

Lemma mean_defined_of_rate (df : list Tidy.row) (r : Metrics.row) (x : R) :
  In r (rows (compute_metrics df)) ->
  Metrics.rate_per_1000 r = Some x ->
  exists m, overall_mean (aggregate df) = Some m.
Proof.
  intros Hr Hx. rewrite overall_mean_defined.
  assert (Hin : In x (defined (map Metrics.rate_per_1000 (rows (compute_metrics df))))).
  { apply defined_In. rewrite <- Hx. now apply in_map. }
  destruct (defined (map Metrics.rate_per_1000 (rows (compute_metrics df)))) as [|v vs];
    [destruct Hin|].
  simpl. eauto.
Qed.

(** A rate on the mean's side of a limit is not beyond that limit. *)
Lemma not_high_at_or_below_mean (df : list Tidy.row) (r : Metrics.row) (x m : R) :
  In r (rows (compute_metrics df)) ->
  Metrics.rate_per_1000 r = Some x -> Metrics.mean_rate r = Some m -> x <= m ->
  Metrics.outlier r <> "high".
Proof.
  intros Hr Hx Hm Hxm Hhigh.
  apply (row_outlier_iff df r Hr), fgt_true in Hhigh.
  destruct Hhigh as (x' & u & Hx' & Hu & Hgt).
  destruct (row_limits_cases df r Hr)
    as [(_ & _ & _ & H3 & _) | (v & q & Hv & _ & _ & Hq & _ & _ & H3 & _)];
    [congruence|].
  rewrite Hx in Hx'. rewrite Hm in Hv. rewrite H3 in Hu.
  inversion Hx'; inversion Hv; inversion Hu; subst. lra.
Qed.

Lemma not_low_at_or_above_mean (df : list Tidy.row) (r : Metrics.row) (x m : R) :
  In r (rows (compute_metrics df)) ->
  Metrics.rate_per_1000 r = Some x -> Metrics.mean_rate r = Some m -> m <= x ->
  Metrics.outlier r <> "low".
Proof.
  intros Hr Hx Hm Hxm Hlow.
  apply (row_outlier_iff df r Hr), flt_true in Hlow.
  destruct Hlow as (x' & l & Hx' & Hl & Hlt).
  destruct (row_limits_cases df r Hr)
    as [(_ & _ & _ & _ & H4) | (v & q & Hv & _ & _ & Hq & _ & _ & _ & H4)];
    [congruence|].
  rewrite Hx in Hx'. rewrite Hm in Hv. rewrite H4 in Hl.
  inversion Hx'; inversion Hv; inversion Hl; subst. lra.
Qed.

(** X6: as soon as one practice has a defined rate, some practice with a
    defined rate is not labelled high and some practice with a defined rate
    is not labelled low: the run never flags every practice on the same
    side. *)
Theorem never_all_on_one_side (df : list Tidy.row) :
  (exists r, In r (rows (compute_metrics df)) /\ Metrics.rate_per_1000 r <> None) ->
  (exists r, In r (rows (compute_metrics df)) /\
             Metrics.rate_per_1000 r <> None /\ Metrics.outlier r <> "high") /\
  (exists r, In r (rows (compute_metrics df)) /\
             Metrics.rate_per_1000 r <> None /\ Metrics.outlier r <> "low").
Proof.
  intros (r0 & Hr0 & Hrate0).
  destruct (Metrics.rate_per_1000 r0) as [x0|] eqn:Ex0; [|congruence].
  destruct (mean_defined_of_rate df r0 x0 Hr0 Ex0) as (m & Hm).
  destruct (rates_around_mean df m Hm)
    as ((rx & x & Hrx & Hx & Hxm) & (ry & y & Hry & Hy & Hmy)).
  split.
  - exists rx. split; [exact Hrx|]. split; [congruence|].
    apply (not_high_at_or_below_mean df rx x m); auto.
    now rewrite (row_mean_rate df rx Hrx).
  - exists ry. split; [exact Hry|]. split; [congruence|].
    apply (not_low_at_or_above_mean df ry y m); auto.
    now rewrite (row_mean_rate df ry Hry).
Qed.

(** X7: when all the defined rates of a run are equal (in particular when
    only one practice has a defined rate) no row is labelled: the common
    rate is the mean rate, which lies within every band. *)
Theorem equal_rates_no_outlier (df : list Tidy.row) :
  (forall r1 r2 x1 x2,
     In r1 (rows (compute_metrics df)) -> In r2 (rows (compute_metrics df)) ->
     Metrics.rate_per_1000 r1 = Some x1 -> Metrics.rate_per_1000 r2 = Some x2 ->
     x1 = x2) ->
  forall r, In r (rows (compute_metrics df)) -> Metrics.outlier r = "".
Proof.
  intros Hsame r Hr.
  destruct (row_outlier_iff df r Hr) as (Hh & Hl & Hn).
  destruct (Metrics.rate_per_1000 r) as [x|] eqn:Ex.
  2:{ apply Hn. split; reflexivity. }
  destruct (mean_defined_of_rate df r x Hr Ex) as (m & Hm).
  destruct (rates_around_mean df m Hm)
    as ((rx & x1 & Hrx & Hx1 & Hle) & (ry & y1 & Hry & Hy1 & Hge)).
  assert (x1 = x) by exact (Hsame rx r x1 x Hrx Hr Hx1 Ex).
  assert (y1 = x) by exact (Hsame ry r y1 x Hry Hr Hy1 Ex).
  assert (Hxm : x = m) by lra.
  assert (Hmr : Metrics.mean_rate r = Some m) by now rewrite (row_mean_rate df r Hr).
  pose proof (not_high_at_or_below_mean df r x m Hr Ex Hmr ltac:(lra)) as Hnh.
  pose proof (not_low_at_or_above_mean df r x m Hr Ex Hmr ltac:(lra)) as Hnl.
  destruct (Some x >? Metrics.ucl998 r)%fl eqn:G.
  - exfalso. apply Hnh. now apply Hh.
  - destruct (Some x <? Metrics.lcl998 r)%fl eqn:L.
    + exfalso. apply Hnl. now apply Hl.
    + apply Hn. auto.
Qed.

Lemma rates_df_same_rate (r : Metrics.row) (x : R) :
  In r (rows (compute_metrics df_same_rate)) ->
  Metrics.rate_per_1000 r = Some x -> x = 10.
Proof.
  intros Hr Hx. apply compute_metrics_In in Hr. destruct Hr as (t & Ht & ->).
  destruct (row_of_grouped (overall_mean (aggregate df_same_rate)) t)
    as (_ & _ & _ & Hrate & _).
  rewrite Hrate in Hx. rewrite aggregate_df_same_rate in Ht.
  destruct Ht as [<- | [<- | []]];
    rewrite rate_of_pos in Hx by (simpl; lra); simpl in Hx;
    inversion Hx; lra.
Qed.

Lemma never_all_on_one_side_witness :
  (exists r, In r (rows (compute_metrics df_same_rate)) /\
             Metrics.rate_per_1000 r <> None) /\
  (exists r, In r (rows (compute_metrics df_same_rate)) /\
             Metrics.rate_per_1000 r <> None /\ Metrics.outlier r <> "high").
Proof.
  assert (H : exists r, In r (rows (compute_metrics df_same_rate)) /\
                        Metrics.rate_per_1000 r <> None).
  { exists (row_for df_same_rate (Grouped.mk "A" 10 1000)). split.
    - apply row_for_In. rewrite aggregate_df_same_rate. now left.
    - destruct (row_of_grouped (overall_mean (aggregate df_same_rate))
                  (Grouped.mk "A" 10 1000)) as (_ & _ & _ & Hrate & _).
      unfold row_for. rewrite Hrate, rate_of_pos by (simpl; lra). discriminate. }
  split; [exact H|]. apply (never_all_on_one_side df_same_rate H).
Defined.

Lemma equal_rates_no_outlier_witness :
  (forall r1 r2 x1 x2,
     In r1 (rows (compute_metrics df_same_rate)) ->
     In r2 (rows (compute_metrics df_same_rate)) ->
     Metrics.rate_per_1000 r1 = Some x1 -> Metrics.rate_per_1000 r2 = Some x2 ->
     x1 = x2) /\
  Metrics.outlier (row_for df_same_rate (Grouped.mk "B" 40 4000)) = "".
Proof.
  assert (H : forall r1 r2 x1 x2,
             In r1 (rows (compute_metrics df_same_rate)) ->
             In r2 (rows (compute_metrics df_same_rate)) ->
             Metrics.rate_per_1000 r1 = Some x1 -> Metrics.rate_per_1000 r2 = Some x2 ->
             x1 = x2).
  { intros r1 r2 x1 x2 H1 H2 E1 E2.
    rewrite (rates_df_same_rate r1 x1 H1 E1), (rates_df_same_rate r2 x2 H2 E2).
    reflexivity. }
  split; [exact H|].
  apply (equal_rates_no_outlier df_same_rate H).
  apply row_for_In. rewrite aggregate_df_same_rate. simpl; auto.
Defined.

(** * Column labels in [src/clean.py] *)

Lemma mem_In (c : string) (names : list string) :
  clean.mem c names = true <-> In c names.
Proof.
  unfold clean.mem. destruct (in_dec string_dec c names); split; intros;
    try discriminate; tauto.
Qed.

Lemma prescribing_selection_all (columns : list string) :
  clean.prescribing_selection columns = columns.
Proof.
  unfold clean.prescribing_selection.
  induction columns as [|c columns IH]; [reflexivity|].
  cbn [filter]. rewrite orb_negb_r. now rewrite IH.
Qed.

Lemma add_month_has_month (columns : list string) :
  In "month" (clean.add_month columns).
Proof.
  unfold clean.add_month. destruct (clean.mem "month" columns) eqn:E.
  - now apply mem_In.
  - apply in_or_app. right. now left.
Qed.


(** X8: from a prescribing file every column is selected (the test of
    line 83 holds for every label), from a list-size file only labels among
    practice_code, month and list_size; both selections contain month. *)
Theorem selected_labels (column_map : clean.dict) (columns : list string) :
  clean.prescribing_labels column_map columns =
    clean.add_month (clean.rename (clean.rename_dict column_map columns) columns) /\
  (List.length columns <= List.length (clean.prescribing_labels column_map columns))%nat /\
  In "month" (clean.prescribing_labels column_map columns) /\
  In "month" (clean.list_size_labels column_map columns) /\
  (forall c, In c (clean.list_size_labels column_map columns) ->
             c = "practice_code" \/ c = "month" \/ c = "list_size").
Proof.
  unfold clean.prescribing_labels, clean.list_size_labels.
  rewrite prescribing_selection_all.
  split; [reflexivity|]. split; [|split; [|split]].
  - unfold clean.add_month, clean.rename.
    destruct (clean.mem "month" _); rewrite ?length_app, length_map; simpl; lia.
  - apply add_month_has_month.
  - unfold clean.list_size_selection. apply filter_In.
    split; [apply add_month_has_month | reflexivity].
  - intros c Hc. unfold clean.list_size_selection in Hc.
    apply filter_In in Hc. destruct Hc as (_ & Hc).
    apply mem_In in Hc. simpl in Hc. intuition.
Qed.






